(** * KILT sdk-js: the encrypted 1:1 messaging protocol ([src/messaging/Message.ts])

    A shallow embedding of the [Message] class: envelope construction,
    [encrypt], [decrypt], the two validation checks and the type-URI
    handling of the DIDComm adapter.

    - Values produced by [JSON.parse] are modelled by the inductive [Json];
      a property read may yield [undefined], modelled as [None : JSValue].
    - Code that can throw returns a [Res]; code that calls collaborators
      outside [Message.ts] (Crypto, Identity, DataUtils, JSON, DIDComm-js)
      runs in the monad [M], which also records the calls in order.
    - The collaborators are not part of the file under study; they are the
      operations of the class [Collaborators]. *)

From Stdlib Require Import List String Ascii ZArith Bool.
From Stdlib Require Import DecimalString DecimalPos DecimalZ.
Import ListNotations.
Open Scope list_scope.
Open Scope string_scope.

Set Implicit Arguments.

(* ------------------------------------------------------------------ *)
(** ** JavaScript values *)

#[local] Unset Elimination Schemes.
Inductive Json : Type :=
| JNull
| JBool (b : bool)
| JNum (n : Z)
| JStr (s : string)
| JArr (items : list Json)
| JObj (fields : list (string * Json)).
#[local] Set Elimination Schemes.

(** [None] is [undefined]. *)
Definition JSValue := option Json.

Fixpoint lookup (k : string) (fields : list (string * Json)) : JSValue :=
  match fields with
  | [] => None
  | (k', v) :: rest => if String.eqb k k' then Some v else lookup k rest
  end.

(** [a === b] against a string constant [b]. *)
Definition strict_eq_str (a : JSValue) (b : string) : bool :=
  match a with
  | Some (JStr s) => String.eqb s b
  | _ => false
  end.

(** Number to string conversion of [a + n] for a string [a] and an integer
    [n]: decimal digits, with a leading minus sign for negative values. *)
Definition Number_toString (n : Z) : string :=
  NilZero.string_of_int (Z.to_int n).

(* ------------------------------------------------------------------ *)
(** ** Errors *)

(** The errors of [errorhandling/SDKErrors] that [Message.ts] raises, and the
    one raised by [validateSignature]. *)
Inductive SDKError : Type :=
| ERROR_IDENTITY_MISMATCH (context type : string)
| ERROR_NONCE_HASH_INVALID (hash nonce : string) (context : string)
| ERROR_SIGNATURE_UNVERIFIABLE
| ERROR_DECODING_MESSAGE
| ERROR_PARSING_MESSAGE.

Inductive Exn : Type :=
| SDK (e : SDKError)
| Error (msg : string)                (* [new Error(msg)] *)
| TypeError                           (* read of a property of undefined or null,
                                         call of something that is no function *)
| SyntaxError                         (* [JSON.parse] *)
| Thrown (callee : string) (msg : string). (* raised inside a collaborator *)

Inductive Res (A : Type) : Type :=
| Ok (a : A)
| Throw (e : Exn).
Arguments Ok {A} a.
Arguments Throw {A} e.

Definition Res_bind {A B} (r : Res A) (k : A -> Res B) : Res B :=
  match r with
  | Ok a => k a
  | Throw e => Throw e
  end.

(** [v.k] for the property names that [Message.ts] reads ([type], [content],
    [requestForAttestation], [claim], [owner], [attestation], [request],
    [@type], [sent_time], [senderBoxPublicKey]): none of them is defined on
    the prototype of a string, number, boolean or array, so the read yields
    [undefined] there. *)
Definition get (v : JSValue) (k : string) : Res JSValue :=
  match v with
  | None => Throw TypeError
  | Some JNull => Throw TypeError
  | Some (JObj fields) => Ok (lookup k fields)
  | Some _ => Ok None
  end.

(** [l.forEach(f)] on a list: the first exception leaves the loop. *)
Fixpoint forEach {A} (f : A -> Res unit) (l : list A) : Res unit :=
  match l with
  | [] => Ok tt
  | x :: rest =>
      match f x with
      | Ok _ => forEach f rest
      | Throw e => Throw e
      end
  end.

(** [v.forEach(f)]: only an array has a callable [forEach]. *)
Definition js_forEach (v : JSValue) (f : JSValue -> Res unit) : Res unit :=
  match v with
  | Some (JArr items) => forEach (fun x => f (Some x)) items
  | _ => Throw TypeError
  end.

(* ------------------------------------------------------------------ *)
(** ** Calls to collaborators, and the monad that records them *)

Inductive Event : Type :=
| EvStringify (value : Json)
| EvParse (text : string)
| EvHashStr (input : string)
| EvSignStr (signer : string) (data : string)
| EvValidateSignature (data signature signer : string)
| EvEncrypt (plaintext boxPublicKey : string)
| EvDecrypt (box nonce boxPublicKey : string)
| EvUnpack (packed : string).

(** The calls into Crypto, Identity key material or signature validation. *)
Definition is_crypto (e : Event) : bool :=
  match e with
  | EvStringify _ | EvParse _ => false
  | _ => true
  end.

Definition Trace := list Event.

Definition M (A : Type) : Type := (Trace * Res A)%type.

Definition ret {A} (a : A) : M A := ([], Ok a).
Definition throw {A} (e : Exn) : M A := ([], Throw e).
Definition lift {A} (r : Res A) : M A := ([], r).
Definition call {A} (ev : Event) (r : Res A) : M A := ([ev], r).

Definition bind {A B} (m : M A) (k : A -> M B) : M B :=
  match m with
  | (t, Ok a) => let (t', r) := k a in ((t ++ t')%list, r)
  | (t, Throw e) => (t, Throw e)
  end.

(** [try { m } catch (error) { h error }] *)
Definition try_catch {A} (m : M A) (h : Exn -> M A) : M A :=
  match m with
  | (t, Ok a) => (t, Ok a)
  | (t, Throw e) => let (t', r) := h e in ((t ++ t')%list, r)
  end.

Declare Scope m_scope.
Delimit Scope m_scope with M.
Notation "x <- m ;; k" := (bind m (fun x => k))
  (at level 61, m at next level, right associativity) : m_scope.
Notation "m ;;; k" := (bind m (fun _ => k))
  (at level 61, right associativity) : m_scope.

Definition trace_of {A} (m : M A) : Trace := fst m.
Definition result_of {A} (m : M A) : Res A := snd m.

(* ------------------------------------------------------------------ *)
(** ** Regular expressions, as far as [typestringReg] needs them *)

(** A pattern is a sequence of atoms followed by [$]. *)
Inductive Atom : Type :=
| One (p : ascii -> bool)        (* [[...]]: one character of a class *)
| LazyStarG (p : ascii -> bool)  (* [(p*?)]: a capture group, shortest first *)
| PlusG (p : ascii -> bool).     (* [(p+)]: a capture group, longest first *)

(** Match the atoms [re] and then the end of the input, returning the text of
    the capture groups in order. Backtracking follows the priorities of the
    JavaScript matcher: a lazy star tries the continuation before it takes
    one more character, a greedy plus takes one more character before it
    tries the continuation. *)
Fixpoint match_here (re : list Atom) : string -> option (list string) :=
  match re with
  | [] => fun s => match s with EmptyString => Some [] | String _ _ => None end
  | a :: rest =>
      let k := match_here rest in
      match a with
      | One p => fun s =>
          match s with
          | String c s' => if p c then k s' else None
          | EmptyString => None
          end
      | LazyStarG p =>
          fix star (s : string) : option (list string) :=
            match k s with
            | Some caps => Some ("" :: caps)
            | None =>
                match s with
                | String c s' =>
                    if p c then
                      match star s' with
                      | Some (g :: caps) => Some (String c g :: caps)
                      | _ => None
                      end
                    else None
                | EmptyString => None
                end
            end
      | PlusG p =>
          fix plus (s : string) : option (list string) :=
            match s with
            | String c s' =>
                if p c then
                  match plus s' with
                  | Some (g :: caps) => Some (String c g :: caps)
                  | _ =>
                      match k s' with
                      | Some caps => Some (String c "" :: caps)
                      | None => None
                      end
                  end
                else None
            | EmptyString => None
            end
      end
  end.

(** The number of capture groups of a pattern. *)
Definition groups (re : list Atom) : nat :=
  List.length (filter (fun a => match a with One _ => false | _ => true end) re).

(** [s.match(re)] for a pattern without the global flag: the first start
    position from the left at which the pattern matches; the result holds the
    matched text followed by the capture groups; [None] is [null]. *)
Fixpoint String_match (re : list Atom) (s : string) : option (list string) :=
  match match_here re s with
  | Some caps => Some (s :: caps)
  | None =>
      match s with
      | String _ s' => String_match re s'
      | EmptyString => None
      end
  end.

Definition in_range (lo hi c : ascii) : bool :=
  (nat_of_ascii lo <=? nat_of_ascii c)%nat && (nat_of_ascii c <=? nat_of_ascii hi)%nat.

Definition one_of (cs : string) (c : ascii) : bool :=
  existsb (Ascii.eqb c) (list_ascii_of_string cs).

(** [.]: any character but a line terminator (of the line terminators only
    LF and CR are single characters of this string model). *)
Definition cls_dot (c : ascii) : bool :=
  negb (Ascii.eqb c "010"%char || Ascii.eqb c "013"%char).
(** [[/?&:;=]] *)
Definition cls_sep : ascii -> bool := one_of "/?&:;=".
(** [[a-z0-9._-]] *)
Definition cls_name (c : ascii) : bool :=
  in_range "a" "z" c || in_range "0" "9" c || one_of "._-" c.
(** [[0-9.]] *)
Definition cls_version (c : ascii) : bool :=
  in_range "0" "9" c || one_of "." c.
(** [/] *)
Definition cls_slash : ascii -> bool := one_of "/".

(** ['(.*?)[/?&:;=]([a-z0-9._-]+)/([0-9.]+)/([a-z0-9._-]+)$'] *)
Definition typestringReg : list Atom :=
  [LazyStarG cls_dot; One cls_sep; PlusG cls_name; One cls_slash;
   PlusG cls_version; One cls_slash; PlusG cls_name].

Definition PROTOCOL_NAME : string := "kilt-messaging".
Definition PROTOCOL_VERSION : string := "0.19".
Definition ERROR_CANT_HANDLE_PROTOCOL (name version : string) : Exn :=
  Error ("no handler for protocol '" ++ name ++ "' version '" ++ version ++ "'").

(* ------------------------------------------------------------------ *)
(** ** Message body types *)

Inductive MessageBodyType : Type :=
| REQUEST_TERMS
| SUBMIT_TERMS
| REJECT_TERMS
| INITIATE_ATTESTATION
| REQUEST_ATTESTATION_FOR_CLAIM
| SUBMIT_ATTESTATION_FOR_CLAIM
| REJECT_ATTESTATION_FOR_CLAIM
| REQUEST_CLAIMS_FOR_CTYPES
| SUBMIT_CLAIMS_FOR_CTYPES_CLASSIC
| SUBMIT_CLAIMS_FOR_CTYPES_PE
| ACCEPT_CLAIMS_FOR_CTYPES
| REJECT_CLAIMS_FOR_CTYPES
| REQUEST_ACCEPT_DELEGATION
| SUBMIT_ACCEPT_DELEGATION
| REJECT_ACCEPT_DELEGATION
| INFORM_CREATE_DELEGATION.

(** The string value of an enumeration member. *)
Definition value_of (t : MessageBodyType) : string :=
  match t with
  | REQUEST_TERMS => "request-terms"
  | SUBMIT_TERMS => "submit-terms"
  | REJECT_TERMS => "reject-terms"
  | INITIATE_ATTESTATION => "initiate-attestation"
  | REQUEST_ATTESTATION_FOR_CLAIM => "request-attestation-for-claim"
  | SUBMIT_ATTESTATION_FOR_CLAIM => "submit-attestation-for-claim"
  | REJECT_ATTESTATION_FOR_CLAIM => "reject-attestation-for-claim"
  | REQUEST_CLAIMS_FOR_CTYPES => "request-claims-for-ctypes"
  | SUBMIT_CLAIMS_FOR_CTYPES_CLASSIC => "submit-claims-for-ctypes-classic"
  | SUBMIT_CLAIMS_FOR_CTYPES_PE => "submit-claims-for-ctypes-pe"
  | ACCEPT_CLAIMS_FOR_CTYPES => "accept-claims-for-ctypes"
  | REJECT_CLAIMS_FOR_CTYPES => "reject-claims-for-ctypes"
  | REQUEST_ACCEPT_DELEGATION => "request-accept-delegation"
  | SUBMIT_ACCEPT_DELEGATION => "submit-accept-delegation"
  | REJECT_ACCEPT_DELEGATION => "reject-accept-delegation"
  | INFORM_CREATE_DELEGATION => "inform-create-delegation"
  end.

(** The members in declaration order. *)
Definition MessageBodyType_members : list MessageBodyType :=
  [REQUEST_TERMS; SUBMIT_TERMS; REJECT_TERMS; INITIATE_ATTESTATION;
   REQUEST_ATTESTATION_FOR_CLAIM; SUBMIT_ATTESTATION_FOR_CLAIM;
   REJECT_ATTESTATION_FOR_CLAIM; REQUEST_CLAIMS_FOR_CTYPES;
   SUBMIT_CLAIMS_FOR_CTYPES_CLASSIC; SUBMIT_CLAIMS_FOR_CTYPES_PE;
   ACCEPT_CLAIMS_FOR_CTYPES; REJECT_CLAIMS_FOR_CTYPES;
   REQUEST_ACCEPT_DELEGATION; SUBMIT_ACCEPT_DELEGATION;
   REJECT_ACCEPT_DELEGATION; INFORM_CREATE_DELEGATION].

(** [Object.values(MessageBodyType)] *)
Definition Object_values_MessageBodyType : list string :=
  map value_of MessageBodyType_members.

Definition isKnownMessageType (type : string) : bool :=
  existsb (String.eqb type) Object_values_MessageBodyType.

(* ------------------------------------------------------------------ *)
(** ** Identities and wire records *)

Module IPublicIdentity.
Record t : Type := mk {
  address : string;
  boxPublicKeyAsHex : string
}.
End IPublicIdentity.

(** Modelled from the spec: the class [Identity] is not among the sources.
    "Identity: an actor's keypair bundle (signing + encryption) and derived
    public address": the public part, and a seed that stands for the private
    key material. *)
Module Identity.
Record t : Type := mk {
  seed : string;
  address : string;
  boxPublicKeyAsHex : string
}.
Definition getBoxPublicKey (i : t) : string := boxPublicKeyAsHex i.
Definition getPublicIdentity (i : t) : IPublicIdentity.t :=
  IPublicIdentity.mk (address i) (boxPublicKeyAsHex i).
End Identity.

Module EncryptedAsymmetricString.
Record t : Type := mk {
  box : string;
  nonce : string
}.
End EncryptedAsymmetricString.

Module IEncryptedMessage.
Record t : Type := mk {
  messageId : option string;
  receivedAt : option Z;
  message : string;
  nonce : string;
  createdAt : Z;
  hash : string;
  signature : string;
  receiverAddress : string;
  senderAddress : string;
  senderBoxPublicKey : string
}.
End IEncryptedMessage.

(** The object that [decrypt] returns, [{ ...encrypted, body: messageBody }]:
    the own properties of [encrypted], and [body]. The interface [IMessage]
    declares [body] and the first six; [inReplyTo] and [references] are
    absent from the object. *)
Module Decrypted.
Record t : Type := mk {
  messageId : option string;
  receivedAt : option Z;
  createdAt : Z;
  receiverAddress : string;
  senderAddress : string;
  senderBoxPublicKey : string;
  message : string;
  nonce : string;
  hash : string;
  signature : string;
  body : Json
}.
End Decrypted.

(** The result of [didcomm.unpackMessage]. *)
Module Unpacked.
Record t : Type := mk {
  message : string;
  senderKey : string;
  recipientKey : string
}.
End Unpacked.

(** The object that [decryptDIDComm] returns. [content] and
    [senderBoxPublicKey] come out of the parsed envelope unchecked;
    [createdAt] is [None] for [NaN]. *)
Module DIDCommMessage.
Record body_t : Type := mk_body {
  content : JSValue;
  type : string
}.
Record t : Type := mk {
  body : body_t;
  createdAt : option Z;
  senderBoxPublicKey : Json;
  receiverAddress : string;
  senderAddress : string
}.
End DIDCommMessage.

(** [v || d] *)
Definition truthy (v : JSValue) : bool :=
  match v with
  | None | Some JNull => false
  | Some (JBool b) => b
  | Some (JNum n) => negb (n =? 0)%Z
  | Some (JStr s) => negb (String.eqb s "")
  | Some (JArr _) | Some (JObj _) => true
  end.

Definition js_or (v : JSValue) (d : Json) : Json :=
  match v with
  | Some j => if truthy v then j else d
  | None => d
  end.

(* ------------------------------------------------------------------ *)
(** ** Collaborators *)

(** What [Message.ts] imports and calls. The sources of these operations are
    not part of the file under study; each is an operation of this class.
    - [encryptAsymmetricAsStr sender plaintext boxPublicKey fresh]: the
      random nonce that the Crypto module draws is the argument [fresh];
      the call may throw.
    - [decryptAsymmetricAsStr] returns [string | false]; [None] is [false].
      An exception of the call itself is outside the model: what is
      stated about [decrypt] from the decryption on is stated for the
      runs in which the call returns, and names what it returned.
    - [verify data signature signer] is the outcome of the signature
      verification inside [validateSignature].
    - [JSON_parse] is [None] where [JSON.parse] throws.
    - [Date_getTime v] is [new Date(v).getTime()], [None] for [NaN]. *)
Class Collaborators : Type := {
  hashStr : string -> string;
  signStr : Identity.t -> string -> string;
  verify : string -> string -> string -> bool;
  encryptAsymmetricAsStr :
    Identity.t -> string -> string -> string -> Res EncryptedAsymmetricString.t;
  decryptAsymmetricAsStr :
    Identity.t -> EncryptedAsymmetricString.t -> string -> option string;
  JSON_stringify : Json -> string;
  JSON_parse : string -> option Json;
  unpackMessage : string -> Identity.t -> Res Unpacked.t;
  base58Decode : string -> Res string;
  encodeAddress : string -> Res string;
  Date_getTime : JSValue -> option Z
}.

Section Calls.
Context {C : Collaborators}.

Definition call_JSON_stringify (v : Json) : M string :=
  call (EvStringify v) (Ok (JSON_stringify v)).

Definition call_JSON_parse (text : string) : M Json :=
  call (EvParse text)
    match JSON_parse text with
    | Some v => Ok v
    | None => Throw SyntaxError
    end.

Definition call_hashStr (input : string) : M string :=
  call (EvHashStr input) (Ok (hashStr input)).

Definition call_signStr (signer : Identity.t) (data : string) : M string :=
  call (EvSignStr (Identity.address signer) data) (Ok (signStr signer data)).

(** Modelled from the spec: [validateSignature] of [util/DataUtils] is not
    among the sources. "validateSignature(payload, signature,
    claimedSignerAddress) -> void | throws": it verifies the signature
    "using the public signing key derivable from claimedSenderAddress;
    fails with a signature-invalid error on mismatch". *)
Definition validateSignature (data signature signer : string) : M unit :=
  call (EvValidateSignature data signature signer)
    (if verify data signature signer then Ok tt
     else Throw (SDK ERROR_SIGNATURE_UNVERIFIABLE)).

Definition call_encryptAsymmetricAsStr
    (sender : Identity.t) (plaintext boxPublicKey fresh : string)
  : M EncryptedAsymmetricString.t :=
  call (EvEncrypt plaintext boxPublicKey)
    (encryptAsymmetricAsStr sender plaintext boxPublicKey fresh).

Definition call_decryptAsymmetricAsStr
    (receiver : Identity.t) (ea : EncryptedAsymmetricString.t)
    (boxPublicKey : string) : M (option string) :=
  call (EvDecrypt (EncryptedAsymmetricString.box ea)
                  (EncryptedAsymmetricString.nonce ea) boxPublicKey)
    (Ok (decryptAsymmetricAsStr receiver ea boxPublicKey)).

Definition call_unpackMessage (packed : string) (recipient : Identity.t)
  : M Unpacked.t :=
  call (EvUnpack packed) (unpackMessage packed recipient).
End Calls.

(* ------------------------------------------------------------------ *)
(** ** The class [Message] *)

Module Message.

(** The fields of an instance. *)
Record t : Type := mk {
  messageId : option string;
  receivedAt : option Z;
  body : Json;
  createdAt : Z;
  receiverAddress : string;
  senderAddress : string;
  senderBoxPublicKey : string;
  message : string;
  nonce : string;
  hash : string;
  signature : string
}.

Section Methods.
Context {C : Collaborators}.
Local Open Scope m_scope.

(** [ensureOwnerIsSender({ body, senderAddress })] *)
Definition ensureOwnerIsSender (body : Json) (senderAddress : string)
  : Res unit :=
  Res_bind (get (Some body) "type") (fun type =>
  if strict_eq_str type (value_of REQUEST_ATTESTATION_FOR_CLAIM) then
    Res_bind (get (Some body) "content") (fun content =>
    Res_bind (get content "requestForAttestation") (fun request =>
    Res_bind (get request "claim") (fun claim =>
    Res_bind (get claim "owner") (fun owner =>
    if negb (strict_eq_str owner senderAddress)
    then Throw (SDK (ERROR_IDENTITY_MISMATCH "Claim" "Sender"))
    else Ok tt))))
  else if strict_eq_str type (value_of SUBMIT_ATTESTATION_FOR_CLAIM) then
    Res_bind (get (Some body) "content") (fun content =>
    Res_bind (get content "attestation") (fun attestation =>
    Res_bind (get attestation "owner") (fun owner =>
    if negb (strict_eq_str owner senderAddress)
    then Throw (SDK (ERROR_IDENTITY_MISMATCH "Attestation" "Sender"))
    else Ok tt)))
  else if strict_eq_str type (value_of SUBMIT_CLAIMS_FOR_CTYPES_CLASSIC) then
    Res_bind (get (Some body) "content") (fun content =>
    js_forEach content (fun claim =>
      Res_bind (get claim "request") (fun request =>
      Res_bind (get request "claim") (fun claim' =>
      Res_bind (get claim' "owner") (fun owner =>
      if negb (strict_eq_str owner senderAddress)
      then Throw (SDK (ERROR_IDENTITY_MISMATCH "Claims" "Sender"))
      else Ok tt)))))
  else Ok tt).

Definition ensureHashAndSignature
    (encrypted : IEncryptedMessage.t) (senderAddress : string) : M unit :=
  digest <- call_hashStr
              (IEncryptedMessage.message encrypted
               ++ IEncryptedMessage.nonce encrypted
               ++ Number_toString (IEncryptedMessage.createdAt encrypted)) ;;
  if negb (String.eqb digest (IEncryptedMessage.hash encrypted)) then
    throw (SDK (ERROR_NONCE_HASH_INVALID
                  (IEncryptedMessage.hash encrypted)
                  (IEncryptedMessage.nonce encrypted) "Message"))
  else
    validateSignature (IEncryptedMessage.hash encrypted)
                      (IEncryptedMessage.signature encrypted)
                      senderAddress.

(** [{ ...encrypted, body: messageBody }] *)
Definition spread_with_body
    (encrypted : IEncryptedMessage.t) (messageBody : Json) : Decrypted.t :=
  {| Decrypted.messageId := IEncryptedMessage.messageId encrypted;
     Decrypted.receivedAt := IEncryptedMessage.receivedAt encrypted;
     Decrypted.createdAt := IEncryptedMessage.createdAt encrypted;
     Decrypted.receiverAddress := IEncryptedMessage.receiverAddress encrypted;
     Decrypted.senderAddress := IEncryptedMessage.senderAddress encrypted;
     Decrypted.senderBoxPublicKey :=
       IEncryptedMessage.senderBoxPublicKey encrypted;
     Decrypted.message := IEncryptedMessage.message encrypted;
     Decrypted.nonce := IEncryptedMessage.nonce encrypted;
     Decrypted.hash := IEncryptedMessage.hash encrypted;
     Decrypted.signature := IEncryptedMessage.signature encrypted;
     Decrypted.body := messageBody |}.

(** [!decoded] for [decoded : string | false] *)
Definition not_decoded (decoded : option string) : bool :=
  match decoded with
  | None => true
  | Some s => String.eqb s ""
  end.

(** [decoded] as a string, where [!decoded] is false. *)
Definition text_of (decoded : option string) : string :=
  match decoded with
  | Some s => s
  | None => ""
  end.

Definition decrypt (encrypted : IEncryptedMessage.t) (receiver : Identity.t)
  : M Decrypted.t :=
  ensureHashAndSignature encrypted
    (IEncryptedMessage.senderAddress encrypted) ;;;
  let ea :=
    {| EncryptedAsymmetricString.box := IEncryptedMessage.message encrypted;
       EncryptedAsymmetricString.nonce := IEncryptedMessage.nonce encrypted |} in
  decoded <- call_decryptAsymmetricAsStr receiver ea
               (IEncryptedMessage.senderBoxPublicKey encrypted) ;;
  if not_decoded decoded then throw (SDK ERROR_DECODING_MESSAGE)
  else
    try_catch
      (messageBody <- call_JSON_parse (text_of decoded) ;;
       let decrypted := spread_with_body encrypted messageBody in
       lift (ensureOwnerIsSender (Decrypted.body decrypted)
               (Decrypted.senderAddress decrypted)) ;;;
       ret decrypted)
      (fun error => throw (SDK ERROR_PARSING_MESSAGE)).

(** [new Message(body, sender, receiver)]; [now] is the value of
    [Date.now()] and [fresh] the nonce drawn during encryption. *)
Definition constructor
    (body : Json) (sender : Identity.t) (receiver : IPublicIdentity.t)
    (now : Z) (fresh : string) : M t :=
  let createdAt := now in
  let receiverAddress := IPublicIdentity.address receiver in
  let senderAddress := Identity.address sender in
  let senderBoxPublicKey := Identity.getBoxPublicKey sender in
  text <- call_JSON_stringify body ;;
  encryptedMessage <-
    call_encryptAsymmetricAsStr sender text
      (IPublicIdentity.boxPublicKeyAsHex receiver) fresh ;;
  let message := EncryptedAsymmetricString.box encryptedMessage in
  let nonce := EncryptedAsymmetricString.nonce encryptedMessage in
  let hashInput := message ++ nonce ++ Number_toString createdAt in
  hash <- call_hashStr hashInput ;;
  signature <- call_signStr sender hash ;;
  ret {| messageId := None;
         receivedAt := None;
         body := body;
         createdAt := createdAt;
         receiverAddress := receiverAddress;
         senderAddress := senderAddress;
         senderBoxPublicKey := senderBoxPublicKey;
         message := message;
         nonce := nonce;
         hash := hash;
         signature := signature |}.

Definition encrypt (this : t) : IEncryptedMessage.t :=
  {| IEncryptedMessage.messageId := messageId this;
     IEncryptedMessage.receivedAt := receivedAt this;
     IEncryptedMessage.message := message this;
     IEncryptedMessage.nonce := nonce this;
     IEncryptedMessage.createdAt := createdAt this;
     IEncryptedMessage.hash := hash this;
     IEncryptedMessage.signature := signature this;
     IEncryptedMessage.receiverAddress := receiverAddress this;
     IEncryptedMessage.senderAddress := senderAddress this;
     IEncryptedMessage.senderBoxPublicKey := senderBoxPublicKey this |}.

(** The part of [decryptDIDComm] that reads the type URI of the parsed
    envelope [contents]: the value of [type] when the [if] statements
    are left, [None] for [null]. The first [match] is the test
    [typeof contents['@type'] === 'string'], the third is
    [captures?.length === 5] with the destructuring of the captures. The
    call of [console.log] has no part in the result. *)
Definition resolve_type (contents : Json) : Res (option string) :=
  Res_bind (get (Some contents) "@type") (fun at_type =>
  match at_type with
  | Some (JStr uri) =>
      match String_match typestringReg uri with
      | Some captures =>
          match captures with
          | [_; _; name; version; typestr] =>
              if negb (String.eqb name PROTOCOL_NAME)
                 || negb (String.eqb version PROTOCOL_VERSION)
              then Throw (ERROR_CANT_HANDLE_PROTOCOL name version)
              else if isKnownMessageType typestr then Ok (Some typestr)
              else Throw (Error ("unknown message type: '" ++ typestr ++ "'"))
          | _ => Ok None
          end
      | None => Ok None
      end
  | _ => Ok None
  end).

(** The key pair that [naclKeypairFromSeed] derives from the seed of the
    recipient is an input of [unpackMessage] only; the collaborator gets the
    recipient. *)
Definition decryptDIDComm (message : string) (recipient : Identity.t)
  : M DIDCommMessage.t :=
  unpacked <- call_unpackMessage message recipient ;;
  contents <- call_JSON_parse (Unpacked.message unpacked) ;;
  type <- lift (resolve_type contents) ;;
  match type with
  | None | Some EmptyString =>
      throw (Error "no or invalid @type URI in message")
  | Some type =>
      content <- lift (get (Some contents) "content") ;;
      let body := DIDCommMessage.mk_body content type in
      sent_time <- lift (get (Some contents) "sent_time") ;;
      let createdAt := Date_getTime sent_time in
      senderSignPublicKey <- lift (base58Decode (Unpacked.senderKey unpacked)) ;;
      receiverSignPublicKey <-
        lift (base58Decode (Unpacked.recipientKey unpacked)) ;;
      senderBoxPublicKey <- lift (get (Some contents) "senderBoxPublicKey") ;;
      receiverAddress <- lift (encodeAddress receiverSignPublicKey) ;;
      senderAddress <- lift (encodeAddress senderSignPublicKey) ;;
      ret {| DIDCommMessage.body := body;
             DIDCommMessage.createdAt := createdAt;
             DIDCommMessage.senderBoxPublicKey :=
               js_or senderBoxPublicKey (JStr "");
             DIDCommMessage.receiverAddress := receiverAddress;
             DIDCommMessage.senderAddress := senderAddress |}
  end.
End Methods.
End Message.

(* ------------------------------------------------------------------ *)
(** ** Sample collaborators

    An instance of [Collaborators] on which the model runs: a JSON codec for
    integers, strings without escapes, arrays and objects; and stand-ins for
    the cryptographic operations that are correct (what is sealed for a key
    opens under it, a signature verifies under the signer's address) without
    being secret. *)

Module Sample.

Definition dquote : ascii := "034"%char.
Definition quoted (s : string) : string := String dquote (s ++ String dquote "").

Fixpoint join (sep : string) (l : list string) : string :=
  match l with
  | [] => ""
  | [x] => x
  | x :: rest => x ++ sep ++ join sep rest
  end.

Fixpoint stringify (v : Json) : string :=
  match v with
  | JNull => "null"
  | JBool true => "true"
  | JBool false => "false"
  | JNum n => Number_toString n
  | JStr s => quoted s
  | JArr items => "[" ++ join "," (map stringify items) ++ "]"
  | JObj fields =>
      "{" ++ join "," (map (fun '(k, v) => quoted k ++ ":" ++ stringify v) fields)
          ++ "}"
  end.

Fixpoint strip_prefix (p s : string) : option string :=
  match p with
  | EmptyString => Some s
  | String a p' =>
      match s with
      | String b s' => if Ascii.eqb a b then strip_prefix p' s' else None
      | EmptyString => None
      end
  end.

(** The text up to the closing quote, and what follows it. *)
Fixpoint read_string (s : string) : option (string * string) :=
  match s with
  | EmptyString => None
  | String c rest =>
      if Ascii.eqb c dquote then Some ("", rest)
      else option_map (fun '(a, r) => (String c a, r)) (read_string rest)
  end.

Definition digit_of (c : ascii) : option Z :=
  if in_range "0" "9" c then Some (Z.of_nat (nat_of_ascii c) - 48)%Z else None.

Fixpoint read_digits (acc : Z) (s : string) : Z * string :=
  match s with
  | String c rest =>
      match digit_of c with
      | Some d => read_digits (10 * acc + d)%Z rest
      | None => (acc, s)
      end
  | EmptyString => (acc, s)
  end.

Fixpoint parse_value (fuel : nat) (s : string) {struct fuel}
  : option (Json * string) :=
  match fuel with
  | O => None
  | S fuel' =>
      match s with
      | EmptyString => None
      | String c rest =>
          if Ascii.eqb c "n" then
            option_map (pair JNull) (strip_prefix "ull" rest)
          else if Ascii.eqb c "t" then
            option_map (pair (JBool true)) (strip_prefix "rue" rest)
          else if Ascii.eqb c "f" then
            option_map (pair (JBool false)) (strip_prefix "alse" rest)
          else if Ascii.eqb c dquote then
            option_map (fun '(a, r) => (JStr a, r)) (read_string rest)
          else if Ascii.eqb c "-" then
            match rest with
            | String d _ =>
                match digit_of d with
                | Some _ => let (n, r) := read_digits 0 rest in Some (JNum (- n), r)
                | None => None
                end
            | EmptyString => None
            end
          else if Ascii.eqb c "[" then
            match rest with
            | String "]" r => Some (JArr [], r)
            | _ => option_map (fun '(l, r) => (JArr l, r)) (parse_items fuel' rest)
            end
          else if Ascii.eqb c "{" then
            match rest with
            | String "}" r => Some (JObj [], r)
            | _ => option_map (fun '(l, r) => (JObj l, r)) (parse_fields fuel' rest)
            end
          else
            match digit_of c with
            | Some _ => let (n, r) := read_digits 0 s in Some (JNum n, r)
            | None => None
            end
      end
  end
with parse_items (fuel : nat) (s : string) {struct fuel}
  : option (list Json * string) :=
  match fuel with
  | O => None
  | S fuel' =>
      match parse_value fuel' s with
      | Some (v, String "," rest) =>
          option_map (fun '(l, r) => (v :: l, r)) (parse_items fuel' rest)
      | Some (v, String "]" rest) => Some ([v], rest)
      | _ => None
      end
  end
with parse_fields (fuel : nat) (s : string) {struct fuel}
  : option (list (string * Json) * string) :=
  match fuel with
  | O => None
  | S fuel' =>
      match s with
      | String c rest =>
          if Ascii.eqb c dquote then
            match read_string rest with
            | Some (k, String ":" rest') =>
                match parse_value fuel' rest' with
                | Some (v, String "," rest'') =>
                    option_map (fun '(l, r) => ((k, v) :: l, r))
                               (parse_fields fuel' rest'')
                | Some (v, String "}" rest'') => Some ([(k, v)], rest'')
                | _ => None
                end
            | _ => None
            end
          else None
      | EmptyString => None
      end
  end.

Definition parse (text : string) : option Json :=
  match parse_value (S (String.length text)) text with
  | Some (v, EmptyString) => Some v
  | _ => None
  end.

Definition hash (input : string) : string := "h:" ++ input.

Definition sign (signer : Identity.t) (data : string) : string :=
  "signed[" ++ Identity.address signer ++ "]" ++ data.

Definition check_signature (data signature signer : string) : bool :=
  String.eqb signature ("signed[" ++ signer ++ "]" ++ data).

(** A box public key is the text [box-] followed by a name. *)
Definition well_formed_key (k : string) : bool :=
  match strip_prefix "box-" k with
  | Some EmptyString | None => false
  | Some _ => true
  end.

Definition seal_prefix (receiverKey senderKey : string) : string :=
  "sealed[" ++ receiverKey ++ "<-" ++ senderKey ++ "]".

Definition encrypt
    (sender : Identity.t) (plaintext boxPublicKey fresh : string)
  : Res EncryptedAsymmetricString.t :=
  if well_formed_key boxPublicKey then
    Ok {| EncryptedAsymmetricString.box :=
            seal_prefix boxPublicKey (Identity.getBoxPublicKey sender) ++ plaintext;
          EncryptedAsymmetricString.nonce := fresh |}
  else Throw (Thrown "encryptAsymmetricAsStr" "bad public key size").

Definition decrypt
    (receiver : Identity.t) (ea : EncryptedAsymmetricString.t)
    (boxPublicKey : string) : option string :=
  strip_prefix (seal_prefix (Identity.getBoxPublicKey receiver) boxPublicKey)
               (EncryptedAsymmetricString.box ea).

Definition unpack (packed : string) (recipient : Identity.t) : Res Unpacked.t :=
  match strip_prefix ("packed[" ++ Identity.address recipient ++ "]") packed with
  | Some text => Ok (Unpacked.mk text "sender-key" (Identity.address recipient))
  | None => Throw (Thrown "unpackMessage" "no corresponding recipient key")
  end.

Definition getTime (v : JSValue) : option Z :=
  match v with
  | Some (JNum n) => Some n
  | _ => None
  end.

#[export] Instance collaborators : Collaborators := {|
  hashStr := hash;
  signStr := sign;
  verify := check_signature;
  encryptAsymmetricAsStr := encrypt;
  decryptAsymmetricAsStr := decrypt;
  JSON_stringify := stringify;
  JSON_parse := parse;
  unpackMessage := unpack;
  base58Decode := fun k => Ok k;
  encodeAddress := fun k => Ok k;
  Date_getTime := getTime
|}.

Definition alice : Identity.t := Identity.mk "seed-alice" "alice" "box-alice".
Definition bob : Identity.t := Identity.mk "seed-bob" "bob" "box-bob".

(** [{ type: 'request-attestation-for-claim',
       content: { requestForAttestation:
                    { claim: { cTypeHash: '0xabc', owner } } } }] *)
Definition requestAttestation (owner : string) : Json :=
  JObj [("type", JStr "request-attestation-for-claim");
        ("content",
         JObj [("requestForAttestation",
                JObj [("claim", JObj [("cTypeHash", JStr "0xabc");
                                      ("owner", JStr owner)])])])].

(** [{ type: 'request-terms', content: { cTypeHash: '0xabc' } }] *)
Definition requestTerms : Json :=
  JObj [("type", JStr "request-terms");
        ("content", JObj [("cTypeHash", JStr "0xabc")])].

Definition claimOf (owner : string) : Json :=
  JObj [("cTypeHash", JStr "0xabc"); ("owner", JStr owner)].

(** [{ type: 'submit-attestation-for-claim',
       content: { attestation: { claimHash: '0x01', owner } } }] *)
Definition submitAttestation (owner : string) : Json :=
  JObj [("type", JStr "submit-attestation-for-claim");
        ("content",
         JObj [("attestation",
                JObj [("claimHash", JStr "0x01"); ("owner", JStr owner)])])].

(** An [IRejectTerms] body: a claim of [owner] and one legitimation whose
    claim belongs to [legitimationOwner]. *)
Definition rejectTerms (owner legitimationOwner : string) : Json :=
  JObj [("type", JStr "reject-terms");
        ("content",
         JObj [("claim", claimOf owner);
               ("legitimations",
                JArr [JObj [("request",
                             JObj [("claim", claimOf legitimationOwner)]);
                            ("attestation",
                             JObj [("owner", JStr "carol")])]])])].

(** An [IRequestAttestationForClaim] body with one prerequisite claim. *)
Definition requestAttestationWithPrerequisite
    (owner prerequisiteOwner : string) : Json :=
  JObj [("type", JStr "request-attestation-for-claim");
        ("content",
         JObj [("requestForAttestation", JObj [("claim", claimOf owner)]);
               ("prerequisiteClaims", JArr [claimOf prerequisiteOwner])])].

Definition now : Z := 1604321000123.

(** An encrypted message from alice to bob with a correct hash and
    signature whose box holds the empty plaintext. *)
Definition emptyPlaintext : IEncryptedMessage.t :=
  let box := seal_prefix "box-bob" "box-alice" in
  let digest := hash (box ++ "n1" ++ Number_toString now) in
  {| IEncryptedMessage.messageId := None;
     IEncryptedMessage.receivedAt := None;
     IEncryptedMessage.message := box;
     IEncryptedMessage.nonce := "n1";
     IEncryptedMessage.createdAt := now;
     IEncryptedMessage.hash := digest;
     IEncryptedMessage.signature := sign alice digest;
     IEncryptedMessage.receiverAddress := "bob";
     IEncryptedMessage.senderAddress := "alice";
     IEncryptedMessage.senderBoxPublicKey := "box-alice" |}.

(** The same with a box that does not open. *)
Definition unopenable : IEncryptedMessage.t :=
  let box := "garbage" in
  let digest := hash (box ++ "n1" ++ Number_toString now) in
  {| IEncryptedMessage.messageId := None;
     IEncryptedMessage.receivedAt := None;
     IEncryptedMessage.message := box;
     IEncryptedMessage.nonce := "n1";
     IEncryptedMessage.createdAt := now;
     IEncryptedMessage.hash := digest;
     IEncryptedMessage.signature := sign alice digest;
     IEncryptedMessage.receiverAddress := "bob";
     IEncryptedMessage.senderAddress := "alice";
     IEncryptedMessage.senderBoxPublicKey := "box-alice" |}.

(** A message from bob's hand that names alice as its sender: the hash is
    the digest, the signature is bob's. *)
Definition wronglySigned : IEncryptedMessage.t :=
  let box := seal_prefix "box-bob" "box-alice" ++ stringify requestTerms in
  let digest := hash (box ++ "n1" ++ Number_toString now) in
  {| IEncryptedMessage.messageId := None;
     IEncryptedMessage.receivedAt := None;
     IEncryptedMessage.message := box;
     IEncryptedMessage.nonce := "n1";
     IEncryptedMessage.createdAt := now;
     IEncryptedMessage.hash := digest;
     IEncryptedMessage.signature := sign bob digest;
     IEncryptedMessage.receiverAddress := "bob";
     IEncryptedMessage.senderAddress := "alice";
     IEncryptedMessage.senderBoxPublicKey := "box-alice" |}.

(** A message whose box is corrupt and whose hash is not the digest. *)
Definition tampered : IEncryptedMessage.t :=
  {| IEncryptedMessage.messageId := None;
     IEncryptedMessage.receivedAt := None;
     IEncryptedMessage.message := "garbage";
     IEncryptedMessage.nonce := "n1";
     IEncryptedMessage.createdAt := now;
     IEncryptedMessage.hash := hash "something else";
     IEncryptedMessage.signature := sign alice (hash "something else");
     IEncryptedMessage.receiverAddress := "bob";
     IEncryptedMessage.senderAddress := "alice";
     IEncryptedMessage.senderBoxPublicKey := "box-alice" |}.

(** [new Message(body, alice, bob's public identity).encrypt()], with the
    nonce [fresh]; [tampered] if the construction throws. *)
Definition sent (body : Json) (fresh : string) : IEncryptedMessage.t :=
  match result_of (Message.constructor body alice
                     (Identity.getPublicIdentity bob) now fresh) with
  | Ok m => Message.encrypt m
  | Throw _ => tampered
  end.

(** A packed DIDComm envelope for bob with the given type URI. *)
Definition envelope (typeUri : string) : Json :=
  JObj [("content", JObj [("cTypeHash", JStr "0xabc")]);
        ("@id", JStr "id-1");
        ("@type", JStr typeUri);
        ("sent_time", JNum now);
        ("senderBoxPublicKey", JStr "box-alice")].
Definition packed (contents : Json) : string :=
  "packed[bob]" ++ stringify contents.

End Sample.

(* ------------------------------------------------------------------ *)
(** ** Vocabulary of the specification *)

Section Vocabulary.
Context {C : Collaborators}.

(** "digest(ciphertext || nonce || createdAt)" *)
Definition digest (ciphertext nonce : string) (createdAt : Z) : string :=
  hashStr (ciphertext ++ nonce ++ Number_toString createdAt).

Definition digest_of (e : IEncryptedMessage.t) : string :=
  digest (IEncryptedMessage.message e) (IEncryptedMessage.nonce e)
         (IEncryptedMessage.createdAt e).

Definition sealed_of (e : IEncryptedMessage.t) : EncryptedAsymmetricString.t :=
  EncryptedAsymmetricString.mk (IEncryptedMessage.message e)
                               (IEncryptedMessage.nonce e).

(** The plaintext that the receiver obtains, [None] where decryption
    fails. *)
Definition opened (e : IEncryptedMessage.t) (receiver : Identity.t)
  : option string :=
  decryptAsymmetricAsStr receiver (sealed_of e)
                         (IEncryptedMessage.senderBoxPublicKey e).

(** The calls that [decrypt] makes when no step fails. *)
Definition ev_hash (e : IEncryptedMessage.t) : Event :=
  EvHashStr (IEncryptedMessage.message e ++ IEncryptedMessage.nonce e
             ++ Number_toString (IEncryptedMessage.createdAt e)).
Definition ev_signature (e : IEncryptedMessage.t) (signer : string) : Event :=
  EvValidateSignature (IEncryptedMessage.hash e)
                      (IEncryptedMessage.signature e) signer.
Definition ev_open (e : IEncryptedMessage.t) : Event :=
  EvDecrypt (IEncryptedMessage.message e) (IEncryptedMessage.nonce e)
            (IEncryptedMessage.senderBoxPublicKey e).

Definition nonce_hash_invalid (e : IEncryptedMessage.t) : Exn :=
  SDK (ERROR_NONCE_HASH_INVALID (IEncryptedMessage.hash e)
                                (IEncryptedMessage.nonce e) "Message").

(** [v.k1.k2...] *)
Fixpoint read_path (v : JSValue) (ks : list string) : Res JSValue :=
  match ks with
  | [] => Ok v
  | k :: rest => Res_bind (get v k) (fun v' => read_path v' rest)
  end.

(** Where the three checked kinds hold the owner. *)
Definition claim_owner_path : list string :=
  ["content"; "requestForAttestation"; "claim"; "owner"].
Definition attestation_owner_path : list string :=
  ["content"; "attestation"; "owner"].
Definition listed_claim_owner_path : list string :=
  ["request"; "claim"; "owner"].

Definition owner_matches (sender : string) (claim : Json) : bool :=
  match read_path (Some claim) listed_claim_owner_path with
  | Ok owner => strict_eq_str owner sender
  | Throw _ => false
  end.

Definition identity_mismatch (entity : string) : Res unit :=
  Throw (SDK (ERROR_IDENTITY_MISMATCH entity "Sender")).

(** The kinds whose content type, as the interfaces of [Message.ts] declare
    it, holds a claim, an attestation or a list of claims:
    [IRequestTerms] (an [IPartialClaim]), [IRejectTerms] (an
    [IPartialClaim] and a list of [IAttestedClaim]),
    [IRequestAttestationForClaim] (an [IRequestForAttestation] and a list
    of [IClaim]), [ISubmitAttestationForClaim] (an [IAttestation]) and
    [ISubmitClaimsForCTypesClassic] (a list of [IAttestedClaim]). *)
Definition content_embeds_claims (kind : MessageBodyType) : bool :=
  match kind with
  | REQUEST_TERMS | REJECT_TERMS
  | REQUEST_ATTESTATION_FOR_CLAIM | SUBMIT_ATTESTATION_FOR_CLAIM
  | SUBMIT_CLAIMS_FOR_CTYPES_CLASSIC => true
  | _ => false
  end.

Definition is_decrypt_call (ev : Event) : bool :=
  match ev with
  | EvDecrypt _ _ _ => true
  | _ => false
  end.
End Vocabulary.

(* ------------------------------------------------------------------ *)
(** ** Further vocabulary: strings and type URIs *)

(** Every character of [s] is in the class [p]. *)
Fixpoint all_chars (p : ascii -> bool) (s : string) : bool :=
  match s with
  | EmptyString => true
  | String c rest => p c && all_chars p rest
  end.

(** [issuer sep name/version/typestr] *)
Definition type_uri (issuer : string) (sep : ascii) (name version typestr : string)
  : string :=
  issuer ++ String sep (name ++ String "/" (version ++ String "/" typestr)).

(** A segment that a greedy group of the class [p] captures. *)
Definition segment (p : ascii -> bool) (s : string) : Prop :=
  s <> "" /\ all_chars p s = true.

(** [{ ...e, message, nonce, createdAt }]: the encrypted message [e] with
    other values of the three fields that enter the hash. *)
Definition with_hashed_fields
    (e : IEncryptedMessage.t) (message nonce : string) (createdAt : Z)
  : IEncryptedMessage.t :=
  {| IEncryptedMessage.messageId := IEncryptedMessage.messageId e;
     IEncryptedMessage.receivedAt := IEncryptedMessage.receivedAt e;
     IEncryptedMessage.message := message;
     IEncryptedMessage.nonce := nonce;
     IEncryptedMessage.createdAt := createdAt;
     IEncryptedMessage.hash := IEncryptedMessage.hash e;
     IEncryptedMessage.signature := IEncryptedMessage.signature e;
     IEncryptedMessage.receiverAddress := IEncryptedMessage.receiverAddress e;
     IEncryptedMessage.senderAddress := IEncryptedMessage.senderAddress e;
     IEncryptedMessage.senderBoxPublicKey :=
       IEncryptedMessage.senderBoxPublicKey e |}.

(** [v.k] of a value [v] that is neither [null] nor [undefined]. *)
Definition field (v : Json) (k : string) : JSValue :=
  match get (Some v) k with
  | Ok x => x
  | Throw _ => None
  end.

(* ------------------------------------------------------------------ *)
(** ** [getDIDComm] *)

(** The value of a template literal [`${v}`]: the string conversion of a
    value, where an array is the list of its elements with commas, [null]
    counting as empty, and every other object is [[object Object]]. *)
Fixpoint Json_toString (v : Json) : string :=
  match v with
  | JNull => "null"
  | JBool true => "true"
  | JBool false => "false"
  | JNum n => Number_toString n
  | JStr s => s
  | JArr items =>
      (fix join (l : list Json) : string :=
         match l with
         | [] => ""
         | x :: rest =>
             match x with JNull => "" | _ => Json_toString x end
             ++ match rest with [] => "" | _ :: _ => "," ++ join rest end
         end) items
  | JObj _ => "[object Object]"
  end.

Definition template_string (v : JSValue) : string :=
  match v with
  | None => "undefined"
  | Some j => Json_toString j
  end.

Module KeyPair.
Record t : Type := mk {
  publicKey : string;
  secretKey : string
}.
End KeyPair.

(** What [getDIDComm] calls besides [JSON.stringify] and the getters of
    [Identity]: [new Date(t).toISOString()], which throws on a time outside
    the range of dates; [decodeAddress]; [naclKeypairFromSeed]; and
    [didcomm.pack_auth_msg_for_recipients], which gets the sender's key pair
    with the constant key type. [uuid()] is the argument [fresh_id] of
    [getDIDComm]. *)
Class PackCollaborators : Type := {
  Date_toISOString : Z -> Res string;
  decodeAddress : string -> Res string;
  naclKeypairFromSeed : string -> Res KeyPair.t;
  pack_auth_msg_for_recipients :
    string -> list string -> KeyPair.t -> bool -> Res string
}.

(** [l.map(f)] for an [f] that can throw. *)
Fixpoint map_throwing {A B} (f : A -> Res B) (l : list A) : Res (list B) :=
  match l with
  | [] => Ok []
  | x :: rest =>
      Res_bind (f x) (fun y =>
      Res_bind (map_throwing f rest) (fun ys => Ok (y :: ys)))
  end.

(** [a || b] for an optional string [a]. *)
Definition string_or (a : option string) (b : string) : string :=
  match a with
  | Some s => if String.eqb s "" then b else s
  | None => b
  end.

(** The object [messageBody] of [getDIDComm]. A property whose value is
    [undefined] is left out: [JSON.stringify] writes nothing for it. *)
Definition DIDComm_messageBody
    (content : JSValue) (id type sent_time senderBoxPublicKey : string) : Json :=
  JObj ((match content with Some v => [("content", v)] | None => [] end)
        ++ [("@id", JStr id);
            ("@type", JStr type);
            ("sent_time", JStr sent_time);
            ("senderBoxPublicKey", JStr senderBoxPublicKey)])%list.

Section GetDIDComm.
Context {C : Collaborators} {P : PackCollaborators}.

Definition getDIDComm
    (this : Message.t) (recipients : list IPublicIdentity.t)
    (sender : Identity.t) (repudiable : bool) (fresh_id : string) : Res string :=
  Res_bind (get (Some (Message.body this)) "content") (fun content =>
  let id := string_or (Message.messageId this) fresh_id in
  Res_bind (get (Some (Message.body this)) "type") (fun type =>
  let at_type :=
    "kilt.io/" ++ PROTOCOL_NAME ++ "/" ++ PROTOCOL_VERSION ++ "/"
    ++ template_string type in
  Res_bind (Date_toISOString (Message.createdAt this)) (fun sent_time =>
  let messageBody :=
    DIDComm_messageBody content id at_type sent_time
      (Identity.getBoxPublicKey sender) in
  Res_bind (map_throwing
              (fun pubId => decodeAddress (IPublicIdentity.address pubId))
              recipients) (fun recipientKeys =>
  Res_bind (naclKeypairFromSeed (Identity.seed sender)) (fun senderKeyPair =>
  pack_auth_msg_for_recipients (JSON_stringify messageBody) recipientKeys
    senderKeyPair (negb repudiable)))))).

End GetDIDComm.

(* ------------------------------------------------------------------ *)
(** ** [packages/kilt-did/src/Did.utils.ts] *)

Module DidUtils.

Inductive Failure : Type :=
| ERROR_INVALID_DID_PREFIX (did : string)   (* of [SDKErrors] *)
| PlainError (msg : string)                 (* [new Error(msg)] *)
| Raised (callee msg : string).             (* thrown by the type registry *)

Inductive Result (A : Type) : Type :=
| Done (a : A)
| Raise (e : Failure).
Arguments Done {A} a.
Arguments Raise {A} e.

Definition and_then {A B} (r : Result A) (k : A -> Result B) : Result B :=
  match r with
  | Done a => k a
  | Raise e => Raise e
  end.

(** [s.startsWith(p)] *)
Fixpoint startsWith (p s : string) : bool :=
  match p with
  | EmptyString => true
  | String a p' =>
      match s with
      | String b s' => Ascii.eqb a b && startsWith p' s'
      | EmptyString => false
      end
  end.

(** [s.substr(start)] *)
Fixpoint substr (start : nat) (s : string) : string :=
  match start with
  | O => s
  | S n =>
      match s with
      | String _ s' => substr n s'
      | EmptyString => ""
      end
  end.

Definition KILT_DID_PREFIX : string := "did:kilt:".

Definition getDidFromIdentifier (identifier : string) : string :=
  KILT_DID_PREFIX ++ identifier.

Definition getIdentifierFromDid (did : string) : Result string :=
  if negb (startsWith KILT_DID_PREFIX did) then
    Raise (ERROR_INVALID_DID_PREFIX did)
  else Done (substr (String.length KILT_DID_PREFIX) did).

(** [{ publicKey, type }] *)
Record IPublicKey : Type := {
  type : string;
  publicKey : list Byte.byte
}.

(** An object with one property, [{ [type]: publicKey }]. *)
Definition PublicKeyEnum := list (string * list Byte.byte).

Definition formatPublicKey (keypair : IPublicKey) : PublicKeyEnum :=
  [(type keypair, publicKey keypair)].

(** [Record<string, UrlEncoding>], where a [UrlEncoding] is
    [{ payload: url }]. *)
Definition UrlEnum := list (string * string).

(** [o[k] = v] *)
Fixpoint assign {V} (o : list (string * V)) (k : string) (v : V)
  : list (string * V) :=
  match o with
  | [] => [(k, v)]
  | (k', v') :: rest =>
      if String.eqb k k' then (k, v) :: rest else (k', v') :: assign rest k v
  end.

(** [l.some(f)] for a callback that updates an object [o]. *)
Fixpoint some {A O} (f : A -> O -> bool * O) (l : list A) (o : O) : bool * O :=
  match l with
  | [] => (false, o)
  | x :: rest =>
      let (found, o') := f x o in
      if found then (true, o') else some f rest o'
  end.

Definition encodeEndpointUrl (url : string) : Result UrlEnum :=
  let (matched, typedUrl) :=
    some (fun type typedUrl =>
            if startsWith type url then (true, assign typedUrl type url)
            else (false, typedUrl))
         ["http"; "ftp"; "ipfs"] [] in
  if negb matched then
    Raise (PlainError
      "only endpoint urls starting with http/https, ftp, and ipfs are accepted")
  else Done typedUrl.

(** A key of a [Partial<Nullable<PublicKeySet>>]: left out, [null], or a
    key. *)
Inductive NullableKey : Type :=
| Undefined
| Null
| Key (k : IPublicKey).

Inductive KeyOperation : Type :=
| Change (k : PublicKeyEnum)
| Delete
| Ignore.

Definition matchKeyOperation (keypair : NullableKey) : KeyOperation :=
  match keypair with
  | Key k => Change (formatPublicKey k)
  | Null => Delete
  | Undefined => Ignore
  end.

Record PublicKeySet : Type := {
  authentication : IPublicKey;
  encryption : IPublicKey;
  attestation : option IPublicKey;
  delegation : option IPublicKey
}.

Record NullablePublicKeySet : Type := {
  authentication' : NullableKey;
  encryption' : NullableKey;
  attestation' : NullableKey;
  delegation' : NullableKey
}.

(** The objects handed to the constructors of the three operations. *)
Record DidCreateRaw : Type := {
  create_did : string;
  newAuthenticationKey : PublicKeyEnum;
  newKeyAgreementKeys : list PublicKeyEnum;
  create_newAttestationKey : option PublicKeyEnum;
  create_newDelegationKey : option PublicKeyEnum;
  create_newEndpointUrl : option UrlEnum
}.

Record DidUpdateRaw (KeyId : Type) : Type := {
  update_did : string;
  newAuthKey : option PublicKeyEnum;             (* [None] is [null] *)
  newKeyAgreementKey : list PublicKeyEnum;
  update_newAttestationKey : KeyOperation;
  update_newDelegationKey : KeyOperation;
  verificationKeysToRemove : list KeyId;
  update_newEndpointUrl : option UrlEnum;
  update_txCounter : Z
}.

Record DidDeleteRaw : Type := {
  delete_did : string;
  delete_txCounter : Z
}.

Inductive Raw (KeyId : Type) : Type :=
| CreateRaw (r : DidCreateRaw)
| UpdateRaw (r : DidUpdateRaw KeyId)
| DeleteRaw (r : DidDeleteRaw).
Arguments CreateRaw {KeyId} r.
Arguments UpdateRaw {KeyId} r.
Arguments DeleteRaw {KeyId} r.

(** [x ? f(x) : undefined] for an optional text [x]: the empty text is
    falsy. *)
Definition optional_url (url : option string) : Result (option UrlEnum) :=
  match url with
  | Some u =>
      if String.eqb u "" then Done None
      else and_then (encodeEndpointUrl u) (fun e => Done (Some e))
  | None => Done None
  end.

Section Registry.
(** The type registry: [getOrThrow name] yields a constructor or throws;
    [construct ctor raw] is [new ctor(typeRegistry, raw)]. *)
Variables KeyId Ctor Operation : Type.
Variable getOrThrow : string -> Result Ctor.
Variable construct : Ctor -> Raw KeyId -> Result Operation.

Definition encodeDidCreate
    (did : string) (keys : PublicKeySet) (endpointUrl : option string)
  : Result Operation :=
  and_then (getIdentifierFromDid did) (fun identifier =>
  and_then (optional_url endpointUrl) (fun newEndpointUrl =>
  let didCreateRaw :=
    {| create_did := identifier;
       newAuthenticationKey := formatPublicKey (authentication keys);
       newKeyAgreementKeys := [formatPublicKey (encryption keys)];
       create_newAttestationKey := option_map formatPublicKey (attestation keys);
       create_newDelegationKey := option_map formatPublicKey (delegation keys);
       create_newEndpointUrl := newEndpointUrl |} in
  and_then (getOrThrow "DidCreationOperation") (fun ctor =>
  construct ctor (CreateRaw didCreateRaw)))).

Definition encodeDidUpdate
    (did : string) (txCounter : Z) (keysToUpdate : NullablePublicKeySet)
    (verificationKeysToRemove : list KeyId) (newEndpointUrl : option string)
  : Result Operation :=
  and_then (getIdentifierFromDid did) (fun identifier =>
  and_then (optional_url newEndpointUrl) (fun endpoint =>
  let didUpdateRaw :=
    {| update_did := identifier;
       newAuthKey :=
         match authentication' keysToUpdate with
         | Key k => Some (formatPublicKey k)
         | _ => None
         end;
       newKeyAgreementKey :=
         match encryption' keysToUpdate with
         | Key k => [formatPublicKey k]
         | _ => []
         end;
       update_newAttestationKey := matchKeyOperation (attestation' keysToUpdate);
       update_newDelegationKey := matchKeyOperation (delegation' keysToUpdate);
       verificationKeysToRemove := verificationKeysToRemove;
       update_newEndpointUrl := endpoint;
       update_txCounter := txCounter |} in
  and_then (getOrThrow "DidUpdateOperation") (fun ctor =>
  construct ctor (UpdateRaw didUpdateRaw)))).

Definition encodeDidDelete (did : string) (txCounter : Z) : Result Operation :=
  and_then (getOrThrow "DidDeletionOperation") (fun ctor =>
  and_then (getIdentifierFromDid did) (fun identifier =>
  construct ctor (DeleteRaw {| delete_did := identifier;
                               delete_txCounter := txCounter |}))).
End Registry.

End DidUtils.

(* ------------------------------------------------------------------ *)
(** ** Sample collaborators for the DIDComm adapter *)

Module SamplePack.

(** A stand-in for the ISO format: [T] and the milliseconds. *)
Definition toISOString (t : Z) : Res string :=
  if (t <? 0)%Z then Throw (Thrown "toISOString" "Invalid time value")
  else Ok ("T" ++ Number_toString t).

Definition getTime (v : JSValue) : option Z :=
  match v with
  | Some (JNum n) => Some n
  | Some (JStr (String "T" digits)) =>
      match Sample.read_digits 0 digits with
      | (n, EmptyString) => Some n
      | _ => None
      end
  | _ => None
  end.

Definition pack (text : string) (keys : list string) (keyPair : KeyPair.t)
    (nonRepudiable : bool) : Res string :=
  match keys with
  | [key] => Ok ("packed[" ++ key ++ "]" ++ text)
  | _ => Throw (Thrown "pack_auth_msg_for_recipients" "one recipient expected")
  end.

#[export] Instance collaborators : Collaborators := {|
  hashStr := Sample.hash;
  signStr := Sample.sign;
  verify := Sample.check_signature;
  encryptAsymmetricAsStr := Sample.encrypt;
  decryptAsymmetricAsStr := Sample.decrypt;
  JSON_stringify := Sample.stringify;
  JSON_parse := Sample.parse;
  unpackMessage := Sample.unpack;
  base58Decode := fun k => Ok k;
  encodeAddress := fun k => Ok k;
  Date_getTime := getTime
|}.

#[export] Instance packer : PackCollaborators := {|
  Date_toISOString := toISOString;
  decodeAddress := fun address => Ok address;
  naclKeypairFromSeed := fun seed => Ok (KeyPair.mk ("public-" ++ seed) seed);
  pack_auth_msg_for_recipients := pack
|}.

(** The instance that alice constructs for bob from a body; [None] if the
    construction throws. *)
Definition constructed (body : Json) : option Message.t :=
  match result_of (Message.constructor body Sample.alice
                     (Identity.getPublicIdentity Sample.bob) Sample.now "n1") with
  | Ok m => Some m
  | Throw _ => None
  end.

(** That instance; one without ciphertext if the construction throws. *)
Definition messageOf (body : Json) : Message.t :=
  match constructed body with
  | Some m => m
  | None => Message.mk None None body Sample.now "bob" "alice" "box-alice"
                       "" "" "" ""
  end.

(** The envelope that alice packs from that instance for a body with the
    given content and type. *)
Definition envelopeOf (content : Json) (type : string) : Json :=
  DIDComm_messageBody (Some content) "uuid-1"
    ("kilt.io/kilt-messaging/0.19/" ++ type) "T1604321000123" "box-alice".

(** An encrypted message from alice to bob with a correct hash and
    signature whose box holds the text [plaintext]. *)
Definition sealed (plaintext : string) : IEncryptedMessage.t :=
  let box := Sample.seal_prefix "box-bob" "box-alice" ++ plaintext in
  let digest := Sample.hash (box ++ "n1" ++ Number_toString Sample.now) in
  {| IEncryptedMessage.messageId := None;
     IEncryptedMessage.receivedAt := None;
     IEncryptedMessage.message := box;
     IEncryptedMessage.nonce := "n1";
     IEncryptedMessage.createdAt := Sample.now;
     IEncryptedMessage.hash := digest;
     IEncryptedMessage.signature := Sample.sign Sample.alice digest;
     IEncryptedMessage.receiverAddress := "bob";
     IEncryptedMessage.senderAddress := "alice";
     IEncryptedMessage.senderBoxPublicKey := "box-alice" |}.

(** [{ type: 'request-attestation-for-claim' }]: a body of a checked kind
    without content. *)
Definition requestWithoutContent : Json :=
  JObj [("type", JStr "request-attestation-for-claim")].

(** [{ type: 'no-such-kind', content: 1 }]: a body whose type is the
    value of no message body type. *)
Definition unknownKind : Json :=
  JObj [("type", JStr "no-such-kind"); ("content", JNum 1)].

(** [{ type: 'submit-claims-for-ctypes-classic', content: claims }] *)
Definition submitClaims (claims : list Json) : Json :=
  JObj [("type", JStr "submit-claims-for-ctypes-classic");
        ("content", JArr claims)].

Definition attestedClaim (owner : string) : Json :=
  JObj [("request", JObj [("claim", Sample.claimOf owner)]);
        ("attestation", JObj [("owner", JStr "carol")])].

(** A registry that knows no type. *)
Definition emptyRegistry (name : string) : DidUtils.Result unit :=
  DidUtils.Raise (DidUtils.Raised "getOrThrow" name).

End SamplePack.

(* ------------------------------------------------------------------ *)
(** ** Properties *)

Section Properties.
Context {C : Collaborators}.

Ltac run :=
  unfold Message.decrypt, Message.ensureHashAndSignature, Message.constructor,
    validateSignature, call_hashStr, call_signStr, call_JSON_parse,
    call_JSON_stringify, call_encryptAsymmetricAsStr,
    call_decryptAsymmetricAsStr, call_unpackMessage,
    bind, try_catch, call, ret, throw, lift, result_of, trace_of; cbn.

Ltac absurd_trace :=
  repeat match goal with
         | H : In _ (_ :: _) |- _ => destruct H as [H|H]
         | H : In _ [] |- _ => destruct H
         | H : _ = _ |- _ => discriminate H
         end.

Lemma eqb_false_neq (a b : string) : negb (String.eqb a b) = true <-> a <> b.
Proof.
  rewrite negb_true_iff. apply String.eqb_neq.
Qed.

(** What [ensureHashAndSignature] returns and which calls it makes. *)
Lemma ensureHashAndSignature_cases (e : IEncryptedMessage.t) (signer : string) :
  Message.ensureHashAndSignature e signer =
  if negb (String.eqb (digest_of e) (IEncryptedMessage.hash e)) then
    ([ev_hash e], Throw (nonce_hash_invalid e))
  else if verify (IEncryptedMessage.hash e) (IEncryptedMessage.signature e) signer
  then ([ev_hash e; ev_signature e signer], Ok tt)
  else ([ev_hash e; ev_signature e signer],
        Throw (SDK ERROR_SIGNATURE_UNVERIFIABLE)).
Proof.
  run. unfold digest_of, digest.
  destruct (negb _); [reflexivity|].
  destruct (verify _ _ _); reflexivity.
Qed.

(** What [decrypt] returns and which calls it makes, step by step. *)
Lemma decrypt_cases (e : IEncryptedMessage.t) (receiver : Identity.t) :
  Message.decrypt e receiver =
  let signer := IEncryptedMessage.senderAddress e in
  if negb (String.eqb (digest_of e) (IEncryptedMessage.hash e)) then
    ([ev_hash e], Throw (nonce_hash_invalid e))
  else if negb (verify (IEncryptedMessage.hash e)
                       (IEncryptedMessage.signature e) signer) then
    ([ev_hash e; ev_signature e signer],
     Throw (SDK ERROR_SIGNATURE_UNVERIFIABLE))
  else
    match opened e receiver with
    | None =>
        ([ev_hash e; ev_signature e signer; ev_open e],
         Throw (SDK ERROR_DECODING_MESSAGE))
    | Some text =>
        if String.eqb text "" then
          ([ev_hash e; ev_signature e signer; ev_open e],
           Throw (SDK ERROR_DECODING_MESSAGE))
        else
          ([ev_hash e; ev_signature e signer; ev_open e; EvParse text],
           match JSON_parse text with
           | None => Throw (SDK ERROR_PARSING_MESSAGE)
           | Some messageBody =>
               match Message.ensureOwnerIsSender messageBody signer with
               | Ok _ => Ok (Message.spread_with_body e messageBody)
               | Throw _ => Throw (SDK ERROR_PARSING_MESSAGE)
               end
           end)
    end.
Proof.
  run. unfold digest_of, digest, opened, sealed_of.
  destruct (negb (String.eqb _ _)); [reflexivity|].
  destruct (verify _ _ _); [|reflexivity]. cbn.
  destruct (decryptAsymmetricAsStr _ _ _) as [text|]; [|reflexivity]. cbn.
  destruct (String.eqb text ""); [reflexivity|]. cbn.
  destruct (JSON_parse text) as [messageBody|]; [|reflexivity]. cbn.
  destruct (Message.ensureOwnerIsSender _ _); reflexivity.
Qed.

(** C2. [decrypt] checks hash and signature, then decrypts, then parses,
    then checks ownership, and it performs each of these steps when the
    steps before it have passed. A message whose transmitted hash differs
    from the recomputed digest fails with the nonce-hash-invalid error after
    the single call that computes the digest, whatever the ciphertext is: no
    decryption call is made. When the hash matches, the signature is
    validated next, and a signature that does not verify ends the run with
    the signature error. When both pass, the decryption call is made, and a
    decryption that returns [false] or the empty text ends the run with the
    decoding error. When it returns a non-empty text, that text is parsed,
    and the result is decided by the parser and then by the ownership check
    on the parsed body: the message with that body when the check accepts
    it, an error when the text does not parse or the check throws. In every
    run the calls are an initial part of the sequence digest, signature
    validation, decryption, parsing; a call is reached only when all checks
    before it have passed; and a message is returned only when the ownership
    check accepts the parsed body. *)
Theorem decrypt_checks_in_order (e : IEncryptedMessage.t) (receiver : Identity.t) :
  let signer := IEncryptedMessage.senderAddress e in
  let run := Message.decrypt e receiver in
  let passed_integrity :=
    digest_of e = IEncryptedMessage.hash e
    /\ verify (IEncryptedMessage.hash e) (IEncryptedMessage.signature e) signer
       = true in
  (digest_of e <> IEncryptedMessage.hash e ->
     run = ([ev_hash e], Throw (nonce_hash_invalid e))
     /\ existsb is_decrypt_call (trace_of run) = false)
  /\ (digest_of e = IEncryptedMessage.hash e ->
      verify (IEncryptedMessage.hash e) (IEncryptedMessage.signature e) signer
      = false ->
      run = ([ev_hash e; ev_signature e signer],
             Throw (SDK ERROR_SIGNATURE_UNVERIFIABLE)))
  /\ (passed_integrity ->
      Message.not_decoded (opened e receiver) = true ->
      run = ([ev_hash e; ev_signature e signer; ev_open e],
             Throw (SDK ERROR_DECODING_MESSAGE)))
  /\ (forall text,
        passed_integrity ->
        opened e receiver = Some text -> text <> "" ->
        trace_of run
        = [ev_hash e; ev_signature e signer; ev_open e; EvParse text]
        /\ result_of run
           = match JSON_parse text with
             | None => Throw (SDK ERROR_PARSING_MESSAGE)
             | Some messageBody =>
                 match Message.ensureOwnerIsSender messageBody signer with
                 | Ok _ => Ok (Message.spread_with_body e messageBody)
                 | Throw _ => Throw (SDK ERROR_PARSING_MESSAGE)
                 end
             end)
  /\ (exists n text,
        trace_of run
        = firstn n [ev_hash e; ev_signature e signer; ev_open e; EvParse text])
  /\ (In (ev_signature e signer) (trace_of run) ->
        digest_of e = IEncryptedMessage.hash e)
  /\ (In (ev_open e) (trace_of run) -> passed_integrity)
  /\ (forall text, In (EvParse text) (trace_of run) ->
        passed_integrity /\ opened e receiver = Some text /\ text <> "")
  /\ (forall d, result_of run = Ok d ->
        exists text,
          passed_integrity
          /\ opened e receiver = Some text /\ text <> ""
          /\ JSON_parse text = Some (Decrypted.body d)
          /\ Message.ensureOwnerIsSender (Decrypted.body d) signer = Ok tt).
Proof.
  intros signer run passed_integrity. subst signer run passed_integrity.
  rewrite decrypt_cases. cbv zeta.
  destruct (negb (String.eqb (digest_of e) (IEncryptedMessage.hash e))) eqn:Hh.
  { apply eqb_false_neq in Hh. unfold trace_of, result_of. cbn [fst snd].
    split; [intros _; split; reflexivity|].
    split; [intros Heq; contradiction|].
    split; [intros [Heq _]; contradiction|].
    split; [intros text [Heq _]; contradiction|].
    split; [exists 1%nat, ""; reflexivity|].
    repeat split; intros; absurd_trace. }
  apply negb_false_iff, String.eqb_eq in Hh.
  split; [intros Hne; contradiction|].
  destruct (verify _ _ _) eqn:Hv; cbn [negb].
  2:{ unfold trace_of, result_of. cbn [fst snd].
      split; [intros _ _; reflexivity|].
      split; [intros [_ Hv']; discriminate Hv'|].
      split; [intros text [_ Hv']; discriminate Hv'|].
      split; [exists 2%nat, ""; reflexivity|].
      repeat split; intros; absurd_trace; auto. }
  split; [intros _ Hv'; discriminate Hv'|].
  destruct (opened e receiver) as [text|] eqn:Ho.
  2:{ unfold trace_of, result_of. cbn [fst snd].
      split; [intros _ _; reflexivity|].
      split; [intros text _ Ho'; discriminate Ho'|].
      split; [exists 3%nat, ""; reflexivity|].
      repeat split; intros; absurd_trace; auto. }
  destruct (String.eqb text "") eqn:Ht.
  { unfold trace_of, result_of. cbn [fst snd].
    split; [intros _ _; reflexivity|].
    apply String.eqb_eq in Ht.
    split; [intros text' _ Ho' Hne; injection Ho' as <-; contradiction|].
    split; [exists 3%nat, ""; reflexivity|].
    repeat split; intros; absurd_trace; auto. }
  unfold trace_of, result_of. cbn [fst snd Message.not_decoded].
  split; [intros _ Ht'; rewrite Ht in Ht'; discriminate Ht'|].
  apply String.eqb_neq in Ht.
  split; [intros text' _ Ho' _; injection Ho' as <-; split; reflexivity|].
  split; [exists 4%nat, text; reflexivity|].
  split; [intros _; assumption|].
  split; [intros _; split; auto|].
  split.
  { intros text' [H|[H|[H|[H|[]]]]]; try discriminate H.
    injection H as <-. repeat split; auto. }
  intros d Hd. exists text.
  destruct (JSON_parse text) as [messageBody|]; [|discriminate Hd].
  destruct (Message.ensureOwnerIsSender messageBody _) as [[]|] eqn:Hown;
    [|discriminate Hd].
  injection Hd as <-. cbn. repeat split; auto.
Qed.

(** C9. When the checks of hash and signature pass and decryption yields
    the empty string, [decrypt] fails with the decoding error after the
    decryption call, and this is the result that a message whose decryption
    fails produces. *)
Theorem decrypt_empty_plaintext_is_decoding_error
    (e : IEncryptedMessage.t) (receiver : Identity.t) :
  digest_of e = IEncryptedMessage.hash e ->
  verify (IEncryptedMessage.hash e) (IEncryptedMessage.signature e)
         (IEncryptedMessage.senderAddress e) = true ->
  opened e receiver = Some "" ->
  Message.decrypt e receiver
  = ([ev_hash e; ev_signature e (IEncryptedMessage.senderAddress e); ev_open e],
     Throw (SDK ERROR_DECODING_MESSAGE))
  /\ forall (e' : IEncryptedMessage.t) (receiver' : Identity.t),
       digest_of e' = IEncryptedMessage.hash e' ->
       verify (IEncryptedMessage.hash e') (IEncryptedMessage.signature e')
              (IEncryptedMessage.senderAddress e') = true ->
       opened e' receiver' = None ->
       result_of (Message.decrypt e' receiver')
       = result_of (Message.decrypt e receiver).
Proof.
  intros Hh Hv Ho.
  assert (He : Message.decrypt e receiver
               = ([ev_hash e; ev_signature e (IEncryptedMessage.senderAddress e);
                   ev_open e], Throw (SDK ERROR_DECODING_MESSAGE))).
  { rewrite decrypt_cases. cbv zeta.
    rewrite Hh, String.eqb_refl, Hv, Ho. reflexivity. }
  split; [exact He|].
  intros e' receiver' Hh' Hv' Ho'.
  rewrite He, decrypt_cases. cbv zeta.
  rewrite Hh', String.eqb_refl, Hv', Ho'. reflexivity.
Qed.

(** C10. The message that [decrypt] returns carries every field of the
    encrypted message unchanged: ciphertext, nonce, hash and signature as
    well as createdAt, the addresses, the sender's box public key,
    messageId and receivedAt; the only other field is the body, which is
    the parsed plaintext. *)
Theorem decrypt_keeps_encrypted_fields
    (e : IEncryptedMessage.t) (receiver : Identity.t) (d : Decrypted.t) :
  result_of (Message.decrypt e receiver) = Ok d ->
  (Decrypted.message d = IEncryptedMessage.message e
   /\ Decrypted.nonce d = IEncryptedMessage.nonce e
   /\ Decrypted.hash d = IEncryptedMessage.hash e
   /\ Decrypted.signature d = IEncryptedMessage.signature e
   /\ Decrypted.createdAt d = IEncryptedMessage.createdAt e
   /\ Decrypted.senderAddress d = IEncryptedMessage.senderAddress e
   /\ Decrypted.receiverAddress d = IEncryptedMessage.receiverAddress e
   /\ Decrypted.senderBoxPublicKey d = IEncryptedMessage.senderBoxPublicKey e
   /\ Decrypted.messageId d = IEncryptedMessage.messageId e
   /\ Decrypted.receivedAt d = IEncryptedMessage.receivedAt e)
  /\ d = Message.spread_with_body e (Decrypted.body d)
  /\ exists text,
       opened e receiver = Some text
       /\ JSON_parse text = Some (Decrypted.body d).
Proof.
  rewrite decrypt_cases. cbv zeta. unfold result_of.
  destruct (negb (String.eqb _ _)); [discriminate|].
  destruct (negb (verify _ _ _)); [discriminate|].
  destruct (opened e receiver) as [text|] eqn:Ho; [|discriminate].
  destruct (String.eqb text ""); [discriminate|]. cbn [snd].
  destruct (JSON_parse text) as [messageBody|] eqn:Hp; [|discriminate].
  destruct (Message.ensureOwnerIsSender _ _); [|discriminate].
  intros H. injection H as <-. cbn.
  repeat split. exists text. split; [reflexivity|exact Hp].
Qed.

(** What the constructor returns and which calls it makes. *)
Lemma constructor_cases
    (body : Json) (sender : Identity.t) (receiver : IPublicIdentity.t)
    (now : Z) (fresh : string) :
  Message.constructor body sender receiver now fresh =
  let text := JSON_stringify body in
  let key := IPublicIdentity.boxPublicKeyAsHex receiver in
  match encryptAsymmetricAsStr sender text key fresh with
  | Throw err => ([EvStringify body; EvEncrypt text key], Throw err)
  | Ok ea =>
      let message := EncryptedAsymmetricString.box ea in
      let nonce := EncryptedAsymmetricString.nonce ea in
      ([EvStringify body; EvEncrypt text key;
        EvHashStr (message ++ nonce ++ Number_toString now);
        EvSignStr (Identity.address sender) (digest message nonce now)],
       Ok {| Message.messageId := None;
             Message.receivedAt := None;
             Message.body := body;
             Message.createdAt := now;
             Message.receiverAddress := IPublicIdentity.address receiver;
             Message.senderAddress := Identity.address sender;
             Message.senderBoxPublicKey := Identity.getBoxPublicKey sender;
             Message.message := message;
             Message.nonce := nonce;
             Message.hash := digest message nonce now;
             Message.signature := signStr sender (digest message nonce now) |})
  end.
Proof.
  run. destruct (encryptAsymmetricAsStr _ _ _ _); reflexivity.
Qed.

(** C4. [ensureHashAndSignature] fails with the nonce-hash-invalid error
    exactly when the digest of ciphertext, nonce and createdAt, in this
    order, differs from the transmitted hash. When the hash matches, it
    validates the transmitted signature against the transmitted hash under
    the claimed sender address: it returns without error when the
    signature verifies and fails with the signature error when it does
    not. The hash that the constructor stores, and that [encrypt] emits, is
    the same digest of the message's own three fields. *)
Theorem ensureHashAndSignature_spec (e : IEncryptedMessage.t) (signer : string) :
  (result_of (Message.ensureHashAndSignature e signer)
     = Throw (nonce_hash_invalid e)
   <-> digest (IEncryptedMessage.message e) (IEncryptedMessage.nonce e)
              (IEncryptedMessage.createdAt e) <> IEncryptedMessage.hash e)
  /\ (digest (IEncryptedMessage.message e) (IEncryptedMessage.nonce e)
             (IEncryptedMessage.createdAt e) = IEncryptedMessage.hash e ->
      Message.ensureHashAndSignature e signer
      = ([ev_hash e;
          EvValidateSignature (IEncryptedMessage.hash e)
                              (IEncryptedMessage.signature e) signer],
         if verify (IEncryptedMessage.hash e) (IEncryptedMessage.signature e)
                   signer
         then Ok tt else Throw (SDK ERROR_SIGNATURE_UNVERIFIABLE)))
  /\ (forall body sender receiver now fresh m,
        result_of (Message.constructor body sender receiver now fresh) = Ok m ->
        Message.hash m
        = digest (Message.message m) (Message.nonce m) (Message.createdAt m)
        /\ IEncryptedMessage.hash (Message.encrypt m)
           = digest_of (Message.encrypt m)).
Proof.
  split; [|split].
  3:{ intros body sender receiver now fresh m H.
      rewrite constructor_cases in H. cbv zeta in H.
      destruct (encryptAsymmetricAsStr _ _ _ _); [|discriminate H].
      injection H as <-. split; reflexivity. }
  all: rewrite ensureHashAndSignature_cases; fold (digest_of e);
    destruct (negb (String.eqb (digest_of e) (IEncryptedMessage.hash e))) eqn:Hh;
    [apply eqb_false_neq in Hh | apply negb_false_iff, String.eqb_eq in Hh].
  - split; [intros _; exact Hh | reflexivity].
  - split; [|intros Hne; contradiction].
    destruct (verify _ _ _); discriminate.
  - intros Heq. contradiction.
  - intros _. unfold ev_signature. destruct (verify _ _ _); reflexivity.
Qed.

(** C7 as amended. The constructor does not examine the receiver's public
    encryption key. For every body, sender and receiver its first two calls
    are the serialisation of the body and the encryption call, which gets
    the key as the receiver record holds it. Construction fails exactly
    when that call throws, with the error that the call threw and without
    a further call; when the call returns, construction succeeds with the
    box and the nonce that the call returned. *)
Theorem constructor_passes_key_to_encryption
    (body : Json) (sender : Identity.t) (receiver : IPublicIdentity.t)
    (now : Z) (fresh : string) :
  let text := JSON_stringify body in
  let key := IPublicIdentity.boxPublicKeyAsHex receiver in
  let run := Message.constructor body sender receiver now fresh in
  firstn 2 (trace_of run) = [EvStringify body; EvEncrypt text key]
  /\ (forall err,
        encryptAsymmetricAsStr sender text key fresh = Throw err <->
        run = ([EvStringify body; EvEncrypt text key], Throw err))
  /\ (forall ea,
        encryptAsymmetricAsStr sender text key fresh = Ok ea <->
        exists m, result_of run = Ok m
                  /\ EncryptedAsymmetricString.mk (Message.message m)
                                                  (Message.nonce m) = ea).
Proof.
  intros text key run. subst text key run.
  rewrite constructor_cases. cbv zeta.
  destruct (encryptAsymmetricAsStr _ _ _ _) as [ea|err];
    unfold trace_of, result_of; cbn [fst snd firstn].
  - split; [reflexivity|]. split.
    + intros err. split; intros H; discriminate H.
    + intros ea'. split.
      * intros H. injection H as <-. eexists. split; [reflexivity|].
        destruct ea; reflexivity.
      * intros [m [Hm Hea]]. injection Hm as <-. cbn in Hea.
        rewrite <- Hea. destruct ea; reflexivity.
  - split; [reflexivity|]. split.
    + intros err'. split; intros H; injection H as <-; reflexivity.
    + intros ea. split; [intros H; discriminate H|].
      intros [m [Hm _]]. discriminate Hm.
Qed.

Lemma forEach_owner_check (sender : string) (claims : list Json) :
  Forall (fun c => exists owner,
              read_path (Some c) listed_claim_owner_path = Ok owner) claims ->
  forEach (fun x =>
    Res_bind (get (Some x) "request") (fun request =>
    Res_bind (get request "claim") (fun claim' =>
    Res_bind (get claim' "owner") (fun owner =>
    if negb (strict_eq_str owner sender)
    then Throw (SDK (ERROR_IDENTITY_MISMATCH "Claims" "Sender"))
    else Ok tt)))) claims
  = if forallb (owner_matches sender) claims then Ok tt
    else identity_mismatch "Claims".
Proof.
  induction 1 as [|c claims [owner Hc] _ IH]; [reflexivity|].
  assert (Hm : owner_matches sender c = strict_eq_str owner sender)
    by (unfold owner_matches; rewrite Hc; reflexivity).
  cbn [forEach forallb]. rewrite IH, Hm.
  unfold listed_claim_owner_path in Hc. cbn [read_path] in Hc.
  destruct (get (Some c) "request") as [request|]; [|discriminate Hc].
  cbn [Res_bind] in *.
  destruct (get request "claim") as [claim'|]; [|discriminate Hc].
  cbn [Res_bind] in *.
  destruct (get claim' "owner") as [owner'|]; [|discriminate Hc].
  cbn [Res_bind] in *. injection Hc as ->.
  destruct (strict_eq_str owner sender); reflexivity.
Qed.

(** The kinds that [ensureOwnerIsSender] does not name pass unchecked. *)
Lemma ensureOwnerIsSender_default (body : Json) (sender : string) (type : JSValue) :
  get (Some body) "type" = Ok type ->
  strict_eq_str type (value_of REQUEST_ATTESTATION_FOR_CLAIM) = false ->
  strict_eq_str type (value_of SUBMIT_ATTESTATION_FOR_CLAIM) = false ->
  strict_eq_str type (value_of SUBMIT_CLAIMS_FOR_CTYPES_CLASSIC) = false ->
  Message.ensureOwnerIsSender body sender = Ok tt.
Proof.
  intros Hty H1 H2 H3. unfold Message.ensureOwnerIsSender.
  rewrite Hty. cbn [Res_bind]. rewrite H1, H2, H3. reflexivity.
Qed.

(** C5 as amended. [ensureOwnerIsSender] dispatches on [body.type] and
    checks three kinds. For a request for attestation whose
    [content.requestForAttestation.claim.owner] can be read, it throws the
    identity mismatch of Claim and Sender exactly when that owner is not
    the sender address as a string. For a submitted attestation whose
    [content.attestation.owner] can be read, it throws the mismatch of
    Attestation and Sender exactly when that owner is not the sender
    address. For classic submitted claims whose content is an array in
    which every [request.claim.owner] can be read, it throws the mismatch
    of Claims and Sender exactly when some owner in the array is not the
    sender address. Every other kind returns without a check, whatever its
    content holds. *)
Theorem ensureOwnerIsSender_dispatch
    (body : Json) (sender : string) (kind : MessageBodyType) :
  get (Some body) "type" = Ok (Some (JStr (value_of kind))) ->
  (kind = REQUEST_ATTESTATION_FOR_CLAIM ->
   forall owner, read_path (Some body) claim_owner_path = Ok owner ->
     Message.ensureOwnerIsSender body sender
     = if strict_eq_str owner sender then Ok tt else identity_mismatch "Claim")
  /\ (kind = SUBMIT_ATTESTATION_FOR_CLAIM ->
      forall owner, read_path (Some body) attestation_owner_path = Ok owner ->
        Message.ensureOwnerIsSender body sender
        = if strict_eq_str owner sender then Ok tt
          else identity_mismatch "Attestation")
  /\ (kind = SUBMIT_CLAIMS_FOR_CTYPES_CLASSIC ->
      forall claims, get (Some body) "content" = Ok (Some (JArr claims)) ->
        Forall (fun c => exists owner,
                    read_path (Some c) listed_claim_owner_path = Ok owner)
               claims ->
        Message.ensureOwnerIsSender body sender
        = if forallb (owner_matches sender) claims then Ok tt
          else identity_mismatch "Claims")
  /\ (kind <> REQUEST_ATTESTATION_FOR_CLAIM ->
      kind <> SUBMIT_ATTESTATION_FOR_CLAIM ->
      kind <> SUBMIT_CLAIMS_FOR_CTYPES_CLASSIC ->
      Message.ensureOwnerIsSender body sender = Ok tt).
Proof.
  intros Hty. repeat split.
  - intros -> owner Hp. unfold Message.ensureOwnerIsSender.
    rewrite Hty. cbn [Res_bind]. cbn [strict_eq_str value_of].
    rewrite String.eqb_refl.
    unfold claim_owner_path in Hp. cbn [read_path] in Hp.
    destruct (get (Some body) "content") as [content|]; [|discriminate Hp].
    cbn [Res_bind] in *.
    destruct (get content "requestForAttestation") as [request|];
      [|discriminate Hp].
    cbn [Res_bind] in *.
    destruct (get request "claim") as [claim|]; [|discriminate Hp].
    cbn [Res_bind] in *.
    destruct (get claim "owner") as [owner'|]; [|discriminate Hp].
    cbn [Res_bind] in *. injection Hp as ->.
    destruct (strict_eq_str owner sender); reflexivity.
  - intros -> owner Hp. unfold Message.ensureOwnerIsSender.
    rewrite Hty. cbn [Res_bind].
    change (strict_eq_str (Some (JStr (value_of SUBMIT_ATTESTATION_FOR_CLAIM)))
              (value_of REQUEST_ATTESTATION_FOR_CLAIM)) with false.
    cbn [strict_eq_str]. rewrite String.eqb_refl.
    unfold attestation_owner_path in Hp. cbn [read_path] in Hp.
    destruct (get (Some body) "content") as [content|]; [|discriminate Hp].
    cbn [Res_bind] in *.
    destruct (get content "attestation") as [attestation|]; [|discriminate Hp].
    cbn [Res_bind] in *.
    destruct (get attestation "owner") as [owner'|]; [|discriminate Hp].
    cbn [Res_bind] in *. injection Hp as ->.
    destruct (strict_eq_str owner sender); reflexivity.
  - intros -> claims Hc Hall. unfold Message.ensureOwnerIsSender.
    rewrite Hty. cbn [Res_bind].
    change (strict_eq_str
              (Some (JStr (value_of SUBMIT_CLAIMS_FOR_CTYPES_CLASSIC)))
              (value_of REQUEST_ATTESTATION_FOR_CLAIM)) with false.
    change (strict_eq_str
              (Some (JStr (value_of SUBMIT_CLAIMS_FOR_CTYPES_CLASSIC)))
              (value_of SUBMIT_ATTESTATION_FOR_CLAIM)) with false.
    cbn [strict_eq_str]. rewrite String.eqb_refl.
    rewrite Hc. cbn [Res_bind js_forEach].
    apply forEach_owner_check. exact Hall.
  - intros H1 H2 H3. eapply ensureOwnerIsSender_default; [exact Hty|..];
      destruct kind; try reflexivity; congruence.
Qed.

(** [isKnownMessageType] holds of the values of the sixteen members and of
    nothing else. *)
Lemma isKnownMessageType_spec (type : string) :
  isKnownMessageType type = true <-> exists kind, value_of kind = type.
Proof.
  unfold isKnownMessageType, Object_values_MessageBodyType.
  rewrite existsb_exists. split.
  - intros [x [Hin Heq]]. apply in_map_iff in Hin. destruct Hin as [kind [Hk _]].
    apply String.eqb_eq in Heq. exists kind. congruence.
  - intros [kind <-]. exists (value_of kind). split.
    + apply in_map. destruct kind; cbn; tauto.
    + apply String.eqb_refl.
Qed.

Lemma MessageBodyType_has_sixteen_members :
  List.length MessageBodyType_members = 16%nat
  /\ NoDup Object_values_MessageBodyType.
Proof.
  split; [reflexivity|].
  unfold Object_values_MessageBodyType, MessageBodyType_members. cbn [map value_of].
  repeat (constructor; [cbn; intuition discriminate|]). constructor.
Qed.


Lemma append_same_length (a a' b b' : string) :
  String.length a = String.length a' -> a ++ b = a' ++ b' -> a = a' /\ b = b'.
Proof.
  revert a'. induction a as [|c a IH]; intros [|c' a'] Hlen Heq;
    try discriminate Hlen.
  - split; [reflexivity|exact Heq].
  - cbn in Hlen, Heq. injection Hlen as Hlen. injection Heq as -> Heq.
    destruct (IH a' Hlen Heq) as [-> ->]. split; reflexivity.
Qed.

(** C8. Two constructions from the same body, sender and receiver whose
    encryption draws different nonces give encrypted messages with
    different nonce fields and different hash fields. The digest is taken
    to be free of collisions; the encryption returns the nonce that it
    drew, nonces have one length, and the length of a box does not depend
    on the nonce. *)
Theorem fresh_nonce_gives_fresh_hash
    (body : Json) (sender : Identity.t) (receiver : IPublicIdentity.t)
    (now1 now2 : Z) (fresh1 fresh2 : string) (m1 m2 : Message.t) :
  (forall x y, hashStr x = hashStr y -> x = y) ->
  (forall s text key fresh ea,
      encryptAsymmetricAsStr s text key fresh = Ok ea ->
      EncryptedAsymmetricString.nonce ea = fresh) ->
  (forall s text key f f' ea ea',
      encryptAsymmetricAsStr s text key f = Ok ea ->
      encryptAsymmetricAsStr s text key f' = Ok ea' ->
      String.length (EncryptedAsymmetricString.box ea)
      = String.length (EncryptedAsymmetricString.box ea')) ->
  fresh1 <> fresh2 ->
  String.length fresh1 = String.length fresh2 ->
  result_of (Message.constructor body sender receiver now1 fresh1) = Ok m1 ->
  result_of (Message.constructor body sender receiver now2 fresh2) = Ok m2 ->
  IEncryptedMessage.nonce (Message.encrypt m1)
    <> IEncryptedMessage.nonce (Message.encrypt m2)
  /\ IEncryptedMessage.hash (Message.encrypt m1)
     <> IEncryptedMessage.hash (Message.encrypt m2).
Proof.
  intros Hinj Hnonce Hlen Hfresh Hwidth H1 H2.
  rewrite constructor_cases in H1, H2. cbv zeta in H1, H2.
  destruct (encryptAsymmetricAsStr sender _ _ fresh1) as [ea1|] eqn:E1;
    [|discriminate H1].
  destruct (encryptAsymmetricAsStr sender _ _ fresh2) as [ea2|] eqn:E2;
    [|discriminate H2].
  injection H1 as <-. injection H2 as <-. cbn.
  pose proof (Hnonce _ _ _ _ _ E1) as N1.
  pose proof (Hnonce _ _ _ _ _ E2) as N2.
  pose proof (Hlen _ _ _ _ _ _ _ E1 E2) as L.
  split.
  - rewrite N1, N2. exact Hfresh.
  - unfold digest. intros Heq. apply Hinj in Heq.
    apply append_same_length in Heq; [|exact L].
    destruct Heq as [_ Heq].
    apply append_same_length in Heq; [|rewrite N1, N2; exact Hwidth].
    destruct Heq as [Heq _]. rewrite N1, N2 in Heq. contradiction.
Qed.

(** A message whose parsed body fails the ownership check is reported as a
    parsing failure, whatever the check threw. *)
Lemma decrypt_owner_check_failure
    (e : IEncryptedMessage.t) (receiver : Identity.t)
    (text : string) (messageBody : Json) (err : Exn) :
  digest_of e = IEncryptedMessage.hash e ->
  verify (IEncryptedMessage.hash e) (IEncryptedMessage.signature e)
         (IEncryptedMessage.senderAddress e) = true ->
  opened e receiver = Some text ->
  text <> "" ->
  JSON_parse text = Some messageBody ->
  Message.ensureOwnerIsSender messageBody (IEncryptedMessage.senderAddress e)
  = Throw err ->
  result_of (Message.decrypt e receiver) = Throw (SDK ERROR_PARSING_MESSAGE).
Proof.
  intros Hh Hv Ho Ht Hp Hown. rewrite decrypt_cases. cbv zeta.
  rewrite Hh, String.eqb_refl, Hv, Ho. cbn [negb].
  apply String.eqb_neq in Ht. rewrite Ht, Hp, Hown. reflexivity.
Qed.

(** C1 as amended. Let the body pass the ownership check under the
    sender's address, let it survive serialisation and parsing, and let
    the collaborators be correct for this sender and receiver (the receiver
    opens what the sender sealed for it, the sender's signature verifies
    under the sender's address). Then decrypting the encrypted form of a
    message constructed for the receiver's public identity succeeds, and
    the body of the result is the body given to the constructor. *)
Theorem roundtrip_when_owner_is_sender
    (body : Json) (sender receiver : Identity.t)
    (now : Z) (fresh : string) (m : Message.t) :
  (forall ea,
      encryptAsymmetricAsStr sender (JSON_stringify body)
        (Identity.getBoxPublicKey receiver) fresh = Ok ea ->
      decryptAsymmetricAsStr receiver ea (Identity.getBoxPublicKey sender)
      = Some (JSON_stringify body)) ->
  (forall data,
      verify data (signStr sender data) (Identity.address sender) = true) ->
  JSON_parse (JSON_stringify body) = Some body ->
  JSON_stringify body <> "" ->
  Message.ensureOwnerIsSender body (Identity.address sender) = Ok tt ->
  result_of (Message.constructor body sender
               (Identity.getPublicIdentity receiver) now fresh) = Ok m ->
  exists d,
    result_of (Message.decrypt (Message.encrypt m) receiver) = Ok d
    /\ Decrypted.body d = body.
Proof.
  intros Hbox Hsig Hparse Hne Hown Hm.
  rewrite constructor_cases in Hm. cbv zeta in Hm. cbn in Hm.
  destruct (encryptAsymmetricAsStr sender _ _ fresh) as [ea|] eqn:E;
    [|discriminate Hm].
  injection Hm as <-. specialize (Hbox ea eq_refl).
  rewrite decrypt_cases. cbv zeta.
  unfold digest_of, opened, sealed_of. cbn.
  rewrite String.eqb_refl, Hsig. cbn [negb].
  destruct ea as [box nonce]. cbn in *. rewrite Hbox.
  apply String.eqb_neq in Hne. rewrite Hne, Hparse, Hown.
  eexists. split; reflexivity.
Qed.

End Properties.

(** *** The type URI pattern *)

Lemma match_here_groups (re : list Atom) :
  forall s caps, match_here re s = Some caps -> List.length caps = groups re.
Proof.
  induction re as [|a rest IH]; intros s caps H.
  - destruct s; [injection H as <-; reflexivity | discriminate H].
  - destruct a as [p|p|p]; cbn [match_here] in H.
    + destruct s as [|c s]; [discriminate H|].
      destruct (p c); [|discriminate H]. exact (IH _ _ H).
    + revert caps H. induction s as [|c s IHs]; intros caps H; cbn in H.
      * destruct (match_here rest "") as [caps0|] eqn:E; [|discriminate H].
        injection H as <-. cbn. f_equal. exact (IH _ _ E).
      * destruct (match_here rest (String c s)) as [caps0|] eqn:E.
        { injection H as <-. cbn. f_equal. exact (IH _ _ E). }
        destruct (p c); [|discriminate H].
        match type of H with
        | match ?x with _ => _ end = _ => destruct x as [[|g caps1]|] eqn:E1
        end; try discriminate H.
        injection H as <-. exact (IHs _ eq_refl).
    + revert caps H. induction s as [|c s IHs]; intros caps H; cbn in H;
        [discriminate H|].
      destruct (p c); [|discriminate H].
      match type of H with
      | match ?x with _ => _ end = _ => destruct x as [[|g caps1]|] eqn:E1
      end.
      * destruct (match_here rest s) as [caps0|] eqn:E; [|discriminate H].
        injection H as <-. cbn. f_equal. exact (IH _ _ E).
      * injection H as <-. exact (IHs _ eq_refl).
      * destruct (match_here rest s) as [caps0|] eqn:E; [|discriminate H].
        injection H as <-. cbn. f_equal. exact (IH _ _ E).
Qed.

(** A match of [typestringReg] has the matched text and four groups:
    [captures.length === 5] holds for every match. *)
Lemma String_match_typestringReg_length (s : string) (captures : list string) :
  String_match typestringReg s = Some captures -> List.length captures = 5%nat.
Proof.
  induction s as [|c s IH]; cbn [String_match];
    destruct (match_here typestringReg _) as [caps|] eqn:E; intros H;
    try discriminate H.
  - injection H as <-. cbn [List.length]. f_equal. exact (match_here_groups _ _ E).
  - injection H as <-. cbn [List.length]. f_equal. exact (match_here_groups _ _ E).
  - exact (IH H).
Qed.

(** The type URI that [getDIDComm] writes for a body of a known kind,
    [`kilt.io/${PROTOCOL_NAME}/${PROTOCOL_VERSION}/${this.body.type}`], is
    read back as that kind. *)
Lemma own_type_uri_is_accepted (kind : MessageBodyType) (rest : list (string * Json)) :
  Message.resolve_type
    (JObj (("@type",
            JStr ("kilt.io/" ++ PROTOCOL_NAME ++ "/" ++ PROTOCOL_VERSION ++ "/"
                  ++ value_of kind)) :: rest))
  = Ok (Some (value_of kind)).
Proof.
  destruct kind; reflexivity.
Qed.

(* ------------------------------------------------------------------ *)
(** ** The sample collaborators are correct *)

Lemma Sample_strip_prefix_append (p s : string) :
  Sample.strip_prefix p (p ++ s) = Some s.
Proof.
  induction p as [|c p IH]; [reflexivity|].
  cbn. rewrite Ascii.eqb_refl. exact IH.
Qed.

Lemma Sample_box_opens (sender receiver : Identity.t) (text fresh : string)
    (ea : EncryptedAsymmetricString.t) :
  Sample.encrypt sender text (Identity.getBoxPublicKey receiver) fresh = Ok ea ->
  Sample.decrypt receiver ea (Identity.getBoxPublicKey sender) = Some text.
Proof.
  unfold Sample.encrypt, Sample.decrypt.
  destruct (Sample.well_formed_key _); [|discriminate].
  intros H. injection H as <-. cbn. apply Sample_strip_prefix_append.
Qed.

Lemma Sample_signature_verifies (signer : Identity.t) (data : string) :
  Sample.check_signature data (Sample.sign signer data) (Identity.address signer)
  = true.
Proof.
  apply String.eqb_refl.
Qed.

Lemma Sample_hash_injective (x y : string) : Sample.hash x = Sample.hash y -> x = y.
Proof.
  unfold Sample.hash. cbn. intros H. injection H as H. exact H.
Qed.

Lemma Sample_nonce_is_fresh (s : Identity.t) (text key fresh : string)
    (ea : EncryptedAsymmetricString.t) :
  Sample.encrypt s text key fresh = Ok ea ->
  EncryptedAsymmetricString.nonce ea = fresh.
Proof.
  unfold Sample.encrypt. destruct (Sample.well_formed_key key); [|discriminate].
  intros H. injection H as <-. reflexivity.
Qed.

Lemma Sample_box_length (s : Identity.t) (text key f f' : string)
    (ea ea' : EncryptedAsymmetricString.t) :
  Sample.encrypt s text key f = Ok ea ->
  Sample.encrypt s text key f' = Ok ea' ->
  String.length (EncryptedAsymmetricString.box ea)
  = String.length (EncryptedAsymmetricString.box ea').
Proof.
  unfold Sample.encrypt. destruct (Sample.well_formed_key key); [|discriminate].
  intros H H'. injection H as <-. injection H' as <-. reflexivity.
Qed.

(* ------------------------------------------------------------------ *)
(** ** The claims on the sample collaborators *)

#[local] Existing Instance Sample.collaborators.

(** C1, counterexample. A body of kind submit-attestation-for-claim whose
    attestation belongs to eve, sent by alice to bob: the construction
    succeeds and bob's [decrypt] of the encrypted form throws. *)
Lemma roundtrip_fails_when_owner_is_not_sender :
  exists m,
    result_of (Message.constructor (Sample.submitAttestation "eve") Sample.alice
                 (Identity.getPublicIdentity Sample.bob) Sample.now "n1") = Ok m
    /\ Message.body m = Sample.submitAttestation "eve"
    /\ result_of (Message.decrypt (Message.encrypt m) Sample.bob)
       = Throw (SDK ERROR_PARSING_MESSAGE).
Proof.
  eexists. split; [reflexivity|]. split; [reflexivity|].
  vm_compute. reflexivity.
Qed.

Lemma roundtrip_when_owner_is_sender_witness :
  Message.ensureOwnerIsSender (Sample.requestAttestation "alice")
    (Identity.address Sample.alice) = Ok tt
  /\ exists m,
      result_of (Message.constructor (Sample.requestAttestation "alice")
                   Sample.alice (Identity.getPublicIdentity Sample.bob)
                   Sample.now "n1") = Ok m
      /\ exists d,
          result_of (Message.decrypt (Message.encrypt m) Sample.bob) = Ok d
          /\ Decrypted.body d = Sample.requestAttestation "alice".
Proof.
  split; [reflexivity|].
  eexists. split; [reflexivity|].
  apply (@roundtrip_when_owner_is_sender Sample.collaborators
           (Sample.requestAttestation "alice") Sample.alice Sample.bob
           Sample.now "n1").
  - intros ea. apply Sample_box_opens.
  - intros data. apply Sample_signature_verifies.
  - vm_compute. reflexivity.
  - vm_compute. discriminate.
  - reflexivity.
  - reflexivity.
Defined.

Lemma decrypt_checks_in_order_witness :
  (digest_of Sample.tampered <> IEncryptedMessage.hash Sample.tampered
   /\ opened Sample.tampered Sample.bob = None
   /\ Message.decrypt Sample.tampered Sample.bob
      = ([ev_hash Sample.tampered], Throw (nonce_hash_invalid Sample.tampered)))
  /\ Message.decrypt Sample.wronglySigned Sample.bob
     = ([ev_hash Sample.wronglySigned; ev_signature Sample.wronglySigned "alice"],
        Throw (SDK ERROR_SIGNATURE_UNVERIFIABLE))
  /\ Message.decrypt Sample.unopenable Sample.bob
     = ([ev_hash Sample.unopenable; ev_signature Sample.unopenable "alice";
         ev_open Sample.unopenable],
        Throw (SDK ERROR_DECODING_MESSAGE))
  /\ (let e := Sample.sent (Sample.submitAttestation "eve") "n1" in
      trace_of (Message.decrypt e Sample.bob)
      = [ev_hash e; ev_signature e "alice"; ev_open e;
         EvParse (Sample.stringify (Sample.submitAttestation "eve"))]
      /\ result_of (Message.decrypt e Sample.bob)
         = Throw (SDK ERROR_PARSING_MESSAGE))
  /\ (let e := Sample.sent (Sample.submitAttestation "alice") "n1" in
      trace_of (Message.decrypt e Sample.bob)
      = [ev_hash e; ev_signature e "alice"; ev_open e;
         EvParse (Sample.stringify (Sample.submitAttestation "alice"))]
      /\ result_of (Message.decrypt e Sample.bob)
         = Ok (Message.spread_with_body e (Sample.submitAttestation "alice"))).
Proof.
  assert (H : digest_of Sample.tampered <> IEncryptedMessage.hash Sample.tampered)
    by (vm_compute; discriminate).
  split; [|split; [|split; [|split]]].
  - split; [exact H|]. split; [reflexivity|].
    exact (proj1 (proj1 (decrypt_checks_in_order Sample.tampered Sample.bob) H)).
  - exact (proj1 (proj2 (decrypt_checks_in_order Sample.wronglySigned Sample.bob))
             eq_refl eq_refl).
  - exact (proj1 (proj2 (proj2 (decrypt_checks_in_order Sample.unopenable Sample.bob)))
             (conj eq_refl eq_refl) eq_refl).
  - cbv zeta.
    refine (proj1 (proj2 (proj2 (proj2
              (decrypt_checks_in_order
                 (Sample.sent (Sample.submitAttestation "eve") "n1") Sample.bob))))
              (Sample.stringify (Sample.submitAttestation "eve"))
              (conj eq_refl eq_refl) eq_refl _).
    vm_compute. discriminate.
  - cbv zeta.
    refine (proj1 (proj2 (proj2 (proj2
              (decrypt_checks_in_order
                 (Sample.sent (Sample.submitAttestation "alice") "n1") Sample.bob))))
              (Sample.stringify (Sample.submitAttestation "alice"))
              (conj eq_refl eq_refl) eq_refl _).
    vm_compute. discriminate.
Defined.

(** C3, evaluation. alice sends bob a request for attestation of a claim
    that belongs to eve. The message passes the check of hash and signature,
    decrypts and parses; [ensureOwnerIsSender] throws the identity mismatch
    of Claim and Sender on the parsed body; [decrypt] throws the parsing
    error. The same message with alice as the owner of the claim is
    returned. *)
Theorem decrypt_reports_owner_mismatch_as_parsing_error :
  let e := Sample.sent (Sample.requestAttestation "eve") "n1" in
  let e' := Sample.sent (Sample.requestAttestation "alice") "n1" in
  digest_of e = IEncryptedMessage.hash e
  /\ verify (IEncryptedMessage.hash e) (IEncryptedMessage.signature e)
            (IEncryptedMessage.senderAddress e) = true
  /\ option_map JSON_parse (opened e Sample.bob)
     = Some (Some (Sample.requestAttestation "eve"))
  /\ Message.ensureOwnerIsSender (Sample.requestAttestation "eve")
       (IEncryptedMessage.senderAddress e) = identity_mismatch "Claim"
  /\ result_of (Message.decrypt e Sample.bob) = Throw (SDK ERROR_PARSING_MESSAGE)
  /\ result_of (Message.decrypt e' Sample.bob)
     = Ok (Message.spread_with_body e' (Sample.requestAttestation "alice")).
Proof.
  cbv zeta. repeat split; vm_compute; reflexivity.
Qed.

Lemma ensureHashAndSignature_spec_witness :
  result_of (Message.ensureHashAndSignature Sample.tampered "alice")
  = Throw (nonce_hash_invalid Sample.tampered)
  /\ Message.ensureHashAndSignature Sample.emptyPlaintext "alice"
     = ([ev_hash Sample.emptyPlaintext;
         ev_signature Sample.emptyPlaintext "alice"], Ok tt)
  /\ result_of (Message.ensureHashAndSignature Sample.emptyPlaintext "bob")
     = Throw (SDK ERROR_SIGNATURE_UNVERIFIABLE).
Proof.
  split; [|split].
  - apply (proj1 (ensureHashAndSignature_spec Sample.tampered "alice")).
    vm_compute. discriminate.
  - exact (proj1 (proj2 (ensureHashAndSignature_spec Sample.emptyPlaintext "alice"))
             eq_refl).
  - exact (f_equal snd
             (proj1 (proj2 (ensureHashAndSignature_spec Sample.emptyPlaintext "bob"))
                eq_refl)).
Defined.

(** C5, counterexample. The content of a reject-terms body holds a claim and
    a list of attested claims, and the content of a request for attestation
    holds prerequisite claims. With alice as the sender and eve as the owner
    of these claims, [ensureOwnerIsSender] returns without an error. *)
Lemma ensureOwnerIsSender_skips_embedded_claims :
  content_embeds_claims REJECT_TERMS = true
  /\ get (Some (Sample.rejectTerms "eve" "eve")) "type"
     = Ok (Some (JStr (value_of REJECT_TERMS)))
  /\ read_path (Some (Sample.rejectTerms "eve" "eve")) ["content"; "claim"; "owner"]
     = Ok (Some (JStr "eve"))
  /\ strict_eq_str (Some (JStr "eve")) "alice" = false
  /\ Message.ensureOwnerIsSender (Sample.rejectTerms "eve" "eve") "alice" = Ok tt
  /\ content_embeds_claims REQUEST_ATTESTATION_FOR_CLAIM = true
  /\ Message.ensureOwnerIsSender
       (Sample.requestAttestationWithPrerequisite "alice" "eve") "alice" = Ok tt.
Proof.
  repeat split; reflexivity.
Qed.

Lemma ensureOwnerIsSender_dispatch_witness :
  Message.ensureOwnerIsSender (Sample.requestAttestation "eve") "alice"
  = identity_mismatch "Claim"
  /\ Message.ensureOwnerIsSender (Sample.requestAttestation "alice") "alice"
     = Ok tt
  /\ Message.ensureOwnerIsSender (Sample.submitAttestation "eve") "alice"
     = identity_mismatch "Attestation"
  /\ Message.ensureOwnerIsSender (Sample.rejectTerms "eve" "eve") "alice" = Ok tt.
Proof.
  split; [|split; [|split]].
  - exact (proj1 (ensureOwnerIsSender_dispatch (Sample.requestAttestation "eve")
                    "alice" REQUEST_ATTESTATION_FOR_CLAIM eq_refl)
             eq_refl (Some (JStr "eve")) eq_refl).
  - exact (proj1 (ensureOwnerIsSender_dispatch (Sample.requestAttestation "alice")
                    "alice" REQUEST_ATTESTATION_FOR_CLAIM eq_refl)
             eq_refl (Some (JStr "alice")) eq_refl).
  - exact (proj1 (proj2 (ensureOwnerIsSender_dispatch
                           (Sample.submitAttestation "eve") "alice"
                           SUBMIT_ATTESTATION_FOR_CLAIM eq_refl))
             eq_refl (Some (JStr "eve")) eq_refl).
  - apply (proj2 (proj2 (proj2 (ensureOwnerIsSender_dispatch
                                  (Sample.rejectTerms "eve" "eve") "alice"
                                  REJECT_TERMS eq_refl)))); discriminate.
Defined.


(** C7, counterexample. The receiver record holds the empty string as box
    public key. The constructor serialises the body and makes the encryption
    call with the empty key; the error is the one that this call throws. *)
Lemma constructor_calls_encryption_with_empty_key :
  Message.constructor Sample.requestTerms Sample.alice
    (IPublicIdentity.mk "bob" "") Sample.now "n1"
  = ([EvStringify Sample.requestTerms;
      EvEncrypt (JSON_stringify Sample.requestTerms) ""],
     Throw (Thrown "encryptAsymmetricAsStr" "bad public key size"))
  /\ existsb is_crypto
       (trace_of (Message.constructor Sample.requestTerms Sample.alice
                    (IPublicIdentity.mk "bob" "") Sample.now "n1")) = true.
Proof.
  split; reflexivity.
Qed.

Lemma fresh_nonce_gives_fresh_hash_witness :
  exists m1 m2,
    result_of (Message.constructor Sample.requestTerms Sample.alice
                 (Identity.getPublicIdentity Sample.bob) Sample.now "n1") = Ok m1
    /\ result_of (Message.constructor Sample.requestTerms Sample.alice
                    (Identity.getPublicIdentity Sample.bob) Sample.now "n2") = Ok m2
    /\ IEncryptedMessage.nonce (Message.encrypt m1)
       <> IEncryptedMessage.nonce (Message.encrypt m2)
    /\ IEncryptedMessage.hash (Message.encrypt m1)
       <> IEncryptedMessage.hash (Message.encrypt m2).
Proof.
  eexists. eexists. split; [reflexivity|]. split; [reflexivity|].
  apply (@fresh_nonce_gives_fresh_hash Sample.collaborators Sample.requestTerms
           Sample.alice (Identity.getPublicIdentity Sample.bob)
           Sample.now Sample.now "n1" "n2").
  - exact Sample_hash_injective.
  - exact Sample_nonce_is_fresh.
  - exact Sample_box_length.
  - discriminate.
  - reflexivity.
  - reflexivity.
  - reflexivity.
Defined.

Lemma decrypt_empty_plaintext_is_decoding_error_witness :
  opened Sample.emptyPlaintext Sample.bob = Some ""
  /\ opened Sample.unopenable Sample.bob = None
  /\ result_of (Message.decrypt Sample.emptyPlaintext Sample.bob)
     = Throw (SDK ERROR_DECODING_MESSAGE)
  /\ result_of (Message.decrypt Sample.unopenable Sample.bob)
     = result_of (Message.decrypt Sample.emptyPlaintext Sample.bob).
Proof.
  pose proof (@decrypt_empty_plaintext_is_decoding_error Sample.collaborators
                Sample.emptyPlaintext Sample.bob eq_refl eq_refl eq_refl)
    as [Hrun Hsame].
  split; [reflexivity|]. split; [reflexivity|]. split.
  - exact (f_equal snd Hrun).
  - exact (Hsame Sample.unopenable Sample.bob eq_refl eq_refl eq_refl).
Defined.

Lemma decrypt_keeps_encrypted_fields_witness :
  exists d,
    result_of (Message.decrypt (Sample.sent Sample.requestTerms "n1") Sample.bob)
    = Ok d
    /\ Decrypted.body d = Sample.requestTerms
    /\ Decrypted.message d
       = IEncryptedMessage.message (Sample.sent Sample.requestTerms "n1")
    /\ Decrypted.signature d
       = IEncryptedMessage.signature (Sample.sent Sample.requestTerms "n1").
Proof.
  eexists. split; [vm_compute; reflexivity|]. split; [reflexivity|].
  match goal with
  | |- Decrypted.message ?d = _ /\ _ =>
      pose proof (@decrypt_keeps_encrypted_fields Sample.collaborators
                    (Sample.sent Sample.requestTerms "n1") Sample.bob d) as H
  end.
  destruct H as [[Hm [_ [_ [Hs _]]]] _]; [vm_compute; reflexivity|].
  split; [exact Hm | exact Hs].
Defined.

(* ------------------------------------------------------------------ *)
(** ** The pattern of type URIs *)

Lemma append_String_assoc (a : string) (c : ascii) (b d : string) :
  (a ++ String c b) ++ d = a ++ String c (b ++ d).
Proof.
  induction a as [|x a IH]; cbn; [reflexivity|]. now rewrite IH.
Qed.

Lemma append_empty_r (a : string) : a ++ "" = a.
Proof.
  induction a as [|x a IH]; cbn; [reflexivity|]. now rewrite IH.
Qed.

Lemma all_chars_append (p : ascii -> bool) (a b : string) :
  all_chars p (a ++ b) = all_chars p a && all_chars p b.
Proof.
  induction a as [|x a IH]; cbn; [reflexivity|].
  rewrite IH. apply andb_assoc.
Qed.

Lemma all_chars_weaken (p q : ascii -> bool) (s : string) :
  (forall c, p c = true -> q c = true) ->
  all_chars p s = true -> all_chars q s = true.
Proof.
  intros Hpq. induction s as [|c s IH]; cbn; [reflexivity|].
  intros H. apply andb_true_iff in H. destruct H as [Hc Hs].
  rewrite (Hpq c Hc), (IH Hs). reflexivity.
Qed.

(** A text splits in one way at the last character of a class. *)
Lemma split_at_last (p : ascii -> bool) (a a' : string) (c c' : ascii)
    (b b' : string) :
  a ++ String c b = a' ++ String c' b' ->
  p c = true -> p c' = true ->
  all_chars (fun x => negb (p x)) b = true ->
  all_chars (fun x => negb (p x)) b' = true ->
  a = a' /\ c = c' /\ b = b'.
Proof.
  revert a'. induction a as [|x a IH]; intros [|x' a'] Heq Hc Hc' Hb Hb'; cbn in Heq.
  - injection Heq as -> ->. repeat split.
  - injection Heq as -> ->. rewrite all_chars_append in Hb. cbn in Hb.
    rewrite Hc' in Hb. cbn in Hb. rewrite andb_false_r in Hb. discriminate Hb.
  - injection Heq as <- <-. rewrite all_chars_append in Hb'. cbn in Hb'.
    rewrite Hc in Hb'. cbn in Hb'. rewrite andb_false_r in Hb'. discriminate Hb'.
  - injection Heq as -> Heq. destruct (IH a' Heq Hc Hc' Hb Hb') as [-> [-> ->]].
    repeat split.
Qed.

Lemma cls_slash_is_slash (c : ascii) : cls_slash c = true -> c = "/"%char.
Proof.
  unfold cls_slash, one_of. cbn. rewrite orb_false_r. apply Ascii.eqb_eq.
Qed.

Lemma cls_name_not_sep (c : ascii) : cls_name c = true -> negb (cls_sep c) = true.
Proof.
  destruct c as [[] [] [] [] [] [] [] []]; vm_compute; congruence.
Qed.

Lemma cls_name_not_slash (c : ascii) : cls_name c = true -> negb (cls_slash c) = true.
Proof.
  destruct c as [[] [] [] [] [] [] [] []]; vm_compute; congruence.
Qed.

Lemma cls_version_not_slash (c : ascii) :
  cls_version c = true -> negb (cls_slash c) = true.
Proof.
  destruct c as [[] [] [] [] [] [] [] []]; vm_compute; congruence.
Qed.

(** *** What a match of each atom says about the text *)

Lemma match_here_nil_inv (s : string) (caps : list string) :
  match_here [] s = Some caps -> s = "" /\ caps = [].
Proof.
  destruct s; cbn; intros H; [injection H as <-; split; reflexivity|discriminate H].
Qed.

Lemma match_here_One_inv (p : ascii -> bool) (rest : list Atom) (s : string)
    (caps : list string) :
  match_here (One p :: rest) s = Some caps ->
  exists c s', s = String c s' /\ p c = true /\ match_here rest s' = Some caps.
Proof.
  cbn [match_here]. destruct s as [|c s]; [discriminate|].
  destruct (p c) eqn:Hc; [|discriminate].
  intros H. exists c, s. repeat split; assumption.
Qed.

Lemma match_here_PlusG_inv (p : ascii -> bool) (rest : list Atom) (s : string)
    (caps : list string) :
  match_here (PlusG p :: rest) s = Some caps ->
  exists g caps' s',
    caps = g :: caps' /\ s = g ++ s' /\ segment p g
    /\ match_here rest s' = Some caps'.
Proof.
  assert (Hone : forall c, p c = true -> segment p (String c "")).
  { intros c Hc. split; [discriminate|]. cbn. rewrite Hc. reflexivity. }
  revert caps. induction s as [|c s IH]; intros caps H; cbn in H; [discriminate H|].
  destruct (p c) eqn:Hc; [|discriminate H].
  match type of H with
  | match ?x with _ => _ end = _ => destruct x as [[|g caps1]|] eqn:E
  end.
  - destruct (match_here rest s) as [caps0|] eqn:Ek; [|discriminate H].
    injection H as <-. exists (String c ""), caps0, s. auto.
  - injection H as <-.
    destruct (IH _ E) as [g' [caps' [s' [Hcaps [Hs [[_ Hall] Hk]]]]]].
    injection Hcaps as <- <-. exists (String c g), caps1, s'.
    split; [reflexivity|]. split; [cbn; now rewrite Hs|]. split; [|exact Hk].
    split; [discriminate|]. cbn. rewrite Hc, Hall. reflexivity.
  - destruct (match_here rest s) as [caps0|] eqn:Ek; [|discriminate H].
    injection H as <-. exists (String c ""), caps0, s. auto.
Qed.

Lemma match_here_LazyStarG_inv (p : ascii -> bool) (rest : list Atom) (s : string)
    (caps : list string) :
  match_here (LazyStarG p :: rest) s = Some caps ->
  exists g caps' s',
    caps = g :: caps' /\ s = g ++ s' /\ all_chars p g = true
    /\ match_here rest s' = Some caps'.
Proof.
  revert caps. induction s as [|c s IH]; intros caps H; cbn in H.
  - destruct (match_here rest "") as [caps0|] eqn:Ek; [|discriminate H].
    injection H as <-. exists "", caps0, "". auto.
  - destruct (match_here rest (String c s)) as [caps0|] eqn:Ek.
    { injection H as <-. exists "", caps0, (String c s). auto. }
    destruct (p c) eqn:Hc; [|discriminate H].
    match type of H with
    | match ?x with _ => _ end = _ => destruct x as [[|g caps1]|] eqn:E
    end; try discriminate H.
    injection H as <-.
    destruct (IH _ E) as [g' [caps' [s' [Hcaps [Hs [Hall Hk]]]]]].
    injection Hcaps as <- <-. exists (String c g), caps1, s'.
    split; [reflexivity|]. split; [cbn; now rewrite Hs|]. split; [|exact Hk].
    cbn. rewrite Hc, Hall. reflexivity.
Qed.

Lemma String_match_inv (re : list Atom) (s : string) (captures : list string) :
  String_match re s = Some captures ->
  exists skipped matched caps,
    s = skipped ++ matched /\ captures = matched :: caps
    /\ match_here re matched = Some caps.
Proof.
  induction s as [|c s IH]; cbn [String_match];
    destruct (match_here re _) as [caps|] eqn:E; intros H; try discriminate H.
  - injection H as <-. exists "", "", caps. auto.
  - injection H as <-. exists "", (String c s), caps. auto.
  - destruct (IH H) as [skipped [matched [caps [Hs [Hc Hm]]]]].
    exists (String c skipped), matched, caps. cbn. rewrite Hs. auto.
Qed.

Lemma match_here_typestringReg_inv (s : string) (caps : list string) :
  match_here typestringReg s = Some caps ->
  exists issuer sep name version typestr,
    caps = [issuer; name; version; typestr]
    /\ s = type_uri issuer sep name version typestr
    /\ all_chars cls_dot issuer = true
    /\ cls_sep sep = true
    /\ segment cls_name name
    /\ segment cls_version version
    /\ segment cls_name typestr.
Proof.
  unfold typestringReg. intros H.
  apply match_here_LazyStarG_inv in H.
  destruct H as [issuer [caps1 [s1 [-> [-> [Hissuer H]]]]]].
  apply match_here_One_inv in H. destruct H as [sep [s2 [-> [Hsep H]]]].
  apply match_here_PlusG_inv in H.
  destruct H as [name [caps2 [s3 [-> [-> [Hname H]]]]]].
  apply match_here_One_inv in H. destruct H as [c1 [s4 [-> [Hc1 H]]]].
  apply match_here_PlusG_inv in H.
  destruct H as [version [caps3 [s5 [-> [-> [Hversion H]]]]]].
  apply match_here_One_inv in H. destruct H as [c2 [s6 [-> [Hc2 H]]]].
  apply match_here_PlusG_inv in H.
  destruct H as [typestr [caps4 [s7 [-> [-> [Htypestr H]]]]]].
  apply match_here_nil_inv in H. destruct H as [-> ->].
  apply cls_slash_is_slash in Hc1, Hc2. subst c1 c2.
  exists issuer, sep, name, version, typestr.
  unfold type_uri. rewrite append_empty_r. auto 10.
Qed.

(** X2. [typestringReg] accepts only type URIs of one form. When the match
    of a text succeeds there are five captures; the matched text is an end
    of the text and consists of an issuer part without line break, one
    separator out of [/?&:;=], a protocol name, a slash, a version, a slash
    and a message type, where name and type are non-empty runs of
    [a-z0-9._-] and the version is a non-empty run of [0-9.]. *)
Theorem typestringReg_accepts_only_type_uris (uri : string) (captures : list string) :
  String_match typestringReg uri = Some captures ->
  exists skipped issuer sep name version typestr,
    captures = [type_uri issuer sep name version typestr;
                issuer; name; version; typestr]
    /\ uri = skipped ++ type_uri issuer sep name version typestr
    /\ all_chars cls_dot issuer = true
    /\ cls_sep sep = true
    /\ segment cls_name name
    /\ segment cls_version version
    /\ segment cls_name typestr.
Proof.
  intros H. apply String_match_inv in H.
  destruct H as [skipped [matched [caps [-> [-> H]]]]].
  apply match_here_typestringReg_inv in H.
  destruct H as [issuer [sep [name [version [typestr [-> [-> H]]]]]]].
  exists skipped, issuer, sep, name, version, typestr. auto.
Qed.

(** *** Texts that each atom matches *)

Lemma PlusG_stops (p : ascii -> bool) (rest : list Atom) (s : string) :
  (forall c r, s = String c r -> p c = false) ->
  match_here (PlusG p :: rest) s = None.
Proof.
  destruct s as [|c r]; intros H; cbn; [reflexivity|].
  rewrite (H c r eq_refl). reflexivity.
Qed.

Lemma match_here_PlusG_intro (p : ascii -> bool) (rest : list Atom)
    (g s : string) (caps : list string) :
  segment p g ->
  (forall c r, s = String c r -> p c = false) ->
  match_here rest s = Some caps ->
  match_here (PlusG p :: rest) (g ++ s) = Some (g :: caps).
Proof.
  intros [Hne Hall] Hstop Hk.
  induction g as [|c g IH]; [contradiction|].
  cbn in Hall. apply andb_true_iff in Hall. destruct Hall as [Hc Hall].
  change (match_here (PlusG p :: rest) (String c g ++ s))
    with (if p c then
            match match_here (PlusG p :: rest) (g ++ s) with
            | Some (g0 :: caps0) => Some (String c g0 :: caps0)
            | _ => match match_here rest (g ++ s) with
                   | Some caps0 => Some (String c "" :: caps0)
                   | None => None
                   end
            end
          else None).
  rewrite Hc. destruct g as [|c' g].
  - cbn [append]. rewrite (@PlusG_stops p rest s Hstop), Hk. reflexivity.
  - rewrite IH; [reflexivity|discriminate|exact Hall].
Qed.

Lemma match_here_One_intro (p : ascii -> bool) (rest : list Atom)
    (c : ascii) (s : string) (caps : list string) :
  p c = true -> match_here rest s = Some caps ->
  match_here (One p :: rest) (String c s) = Some caps.
Proof.
  intros Hc Hk. cbn. rewrite Hc. exact Hk.
Qed.

Lemma match_here_LazyStarG_empty (p : ascii -> bool) (rest : list Atom)
    (s : string) (caps : list string) :
  match_here rest s = Some caps ->
  match_here (LazyStarG p :: rest) s = Some ("" :: caps).
Proof.
  intros Hk. destruct s; cbn; rewrite Hk; reflexivity.
Qed.

(** The pattern matches a type URI without issuer part from its start. *)
Lemma match_here_type_uri (sep : ascii) (name version typestr : string) :
  cls_sep sep = true ->
  segment cls_name name -> segment cls_version version -> segment cls_name typestr ->
  match_here typestringReg (type_uri "" sep name version typestr)
  = Some [""; name; version; typestr].
Proof.
  intros Hsep Hname Hversion Htypestr. unfold type_uri, typestringReg. cbn [append].
  apply match_here_LazyStarG_empty, match_here_One_intro; [exact Hsep|].
  apply match_here_PlusG_intro; [exact Hname| |].
  { intros c r H. injection H as <- _. reflexivity. }
  apply match_here_One_intro; [reflexivity|].
  apply match_here_PlusG_intro; [exact Hversion| |].
  { intros c r H. injection H as <- _. reflexivity. }
  apply match_here_One_intro; [reflexivity|].
  rewrite <- (append_empty_r typestr) at 1.
  apply match_here_PlusG_intro; [exact Htypestr|discriminate|reflexivity].
Qed.

(** A type URI has one reading. *)
Lemma type_uri_unique (issuer issuer' : string) (sep sep' : ascii)
    (name name' version version' typestr typestr' : string) :
  type_uri issuer sep name version typestr
  = type_uri issuer' sep' name' version' typestr' ->
  cls_sep sep = true -> cls_sep sep' = true ->
  all_chars cls_name name = true -> all_chars cls_name name' = true ->
  all_chars cls_version version = true -> all_chars cls_version version' = true ->
  all_chars cls_name typestr = true -> all_chars cls_name typestr' = true ->
  issuer = issuer' /\ sep = sep' /\ name = name' /\ version = version'
  /\ typestr = typestr'.
Proof.
  unfold type_uri. intros Heq Hs Hs' Hn Hn' Hv Hv' Ht Ht'.
  rewrite <- !append_String_assoc in Heq.
  apply (split_at_last cls_slash) in Heq;
    [|reflexivity|reflexivity
     |exact (@all_chars_weaken _ _ _ cls_name_not_slash Ht)
     |exact (@all_chars_weaken _ _ _ cls_name_not_slash Ht')].
  destruct Heq as [Heq [_ ->]].
  apply (split_at_last cls_slash) in Heq;
    [|reflexivity|reflexivity
     |exact (@all_chars_weaken _ _ _ cls_version_not_slash Hv)
     |exact (@all_chars_weaken _ _ _ cls_version_not_slash Hv')].
  destruct Heq as [Heq [_ ->]].
  apply (split_at_last cls_sep) in Heq;
    [|exact Hs|exact Hs'
     |exact (@all_chars_weaken _ _ _ cls_name_not_sep Hn)
     |exact (@all_chars_weaken _ _ _ cls_name_not_sep Hn')].
  destruct Heq as [-> [-> ->]]. repeat split.
Qed.

(** The pattern matches every type URI, whatever the issuer part. *)
Lemma String_match_type_uri
    (issuer : string) (sep : ascii) (name version typestr : string) :
  cls_sep sep = true ->
  segment cls_name name -> segment cls_version version -> segment cls_name typestr ->
  exists full issuer',
    String_match typestringReg (type_uri issuer sep name version typestr)
    = Some [full; issuer'; name; version; typestr].
Proof.
  intros Hsep Hname Hversion Htypestr.
  induction issuer as [|c issuer IH].
  - pose proof (@match_here_type_uri sep name version typestr
                  Hsep Hname Hversion Htypestr) as Hm.
    exists (type_uri "" sep name version typestr), "".
    unfold type_uri in *. cbn [append] in *. cbn [String_match].
    rewrite Hm. reflexivity.
  - change (type_uri (String c issuer) sep name version typestr)
      with (String c (type_uri issuer sep name version typestr)).
    cbn [String_match].
    destruct (match_here typestringReg
                (String c (type_uri issuer sep name version typestr)))
      as [caps|] eqn:E; [|exact IH].
    apply match_here_typestringReg_inv in E.
    destruct E as [i' [s' [n' [v' [t' [-> [Heq [_ [Hs' [Hn' [Hv' Ht']]]]]]]]]]].
    change (String c (type_uri issuer sep name version typestr))
      with (type_uri (String c issuer) sep name version typestr) in Heq.
    apply type_uri_unique in Heq;
      try (apply Hname || apply Hversion || apply Htypestr
           || apply Hn' || apply Hv' || apply Ht' || assumption).
    destruct Heq as [_ [_ [-> [-> ->]]]].
    eexists _, _. reflexivity.
Qed.

(** X3. [typestringReg] reads protocol name, version and message type off a
    text exactly when the text is a type URI with these parts: some issuer
    part (any text), one separator out of [/?&:;=], the name, a slash, the
    version, a slash and the type, where name and type are non-empty runs of
    [a-z0-9._-] and the version is a non-empty run of [0-9.]. The issuer
    part is not constrained. *)
Theorem typestringReg_reads_exactly_type_uris (uri name version typestr : string) :
  (exists full issuer',
      String_match typestringReg uri = Some [full; issuer'; name; version; typestr])
  <-> (exists issuer sep,
          uri = type_uri issuer sep name version typestr
          /\ cls_sep sep = true
          /\ segment cls_name name
          /\ segment cls_version version
          /\ segment cls_name typestr).
Proof.
  split.
  - intros [full [issuer' H]]. apply String_match_inv in H.
    destruct H as [skipped [matched [caps [-> [Hc H]]]]].
    injection Hc as -> <-.
    apply match_here_typestringReg_inv in H.
    destruct H as [issuer [sep [n [v [t [Hc [-> [_ [Hs [Hn [Hv Ht]]]]]]]]]]].
    injection Hc as _ <- <- <-.
    exists (skipped ++ issuer), sep. split; [|auto].
    unfold type_uri. clear. induction skipped as [|c k IH]; cbn; [reflexivity|].
    now rewrite IH.
  - intros [issuer [sep [-> [Hs [Hn [Hv Ht]]]]]].
    apply String_match_type_uri; assumption.
Qed.

Lemma typestringReg_accepts_only_type_uris_witness :
  exists skipped issuer sep name version typestr,
    [type_uri "did:sov:BzCbsNYhMrjHiqZDTUASHg;spec" "/" "basicmessage" "1.0" "message";
     "did:sov:BzCbsNYhMrjHiqZDTUASHg;spec"; "basicmessage"; "1.0"; "message"]
    = [type_uri issuer sep name version typestr; issuer; name; version; typestr]
    /\ "did:sov:BzCbsNYhMrjHiqZDTUASHg;spec/basicmessage/1.0/message"
       = skipped ++ type_uri issuer sep name version typestr
    /\ all_chars cls_dot issuer = true
    /\ cls_sep sep = true
    /\ segment cls_name name
    /\ segment cls_version version
    /\ segment cls_name typestr.
Proof.
  exact (@typestringReg_accepts_only_type_uris
           "did:sov:BzCbsNYhMrjHiqZDTUASHg;spec/basicmessage/1.0/message"
           _ eq_refl).
Defined.

(** X1. [isKnownMessageType] accepts a text exactly when it is the value of
    a member of [MessageBodyType], and that member is then the only one with
    this value: the sixteen values are pairwise different. *)
Theorem isKnownMessageType_names_one_member (type : string) :
  isKnownMessageType type = true
  <-> exists kind, value_of kind = type
                   /\ forall kind', value_of kind' = type -> kind' = kind.
Proof.
  rewrite isKnownMessageType_spec. split.
  - intros [kind <-]. exists kind. split; [reflexivity|].
    intros kind' H. destruct kind, kind'; try reflexivity; discriminate H.
  - intros [kind [H _]]. exists kind. exact H.
Qed.

(* ------------------------------------------------------------------ *)
(** ** Further properties of the validation and of [decrypt] *)

Lemma length_append (a b : string) :
  String.length (a ++ b) = (String.length a + String.length b)%nat.
Proof.
  induction a as [|c a IH]; cbn; [reflexivity|]. now rewrite IH.
Qed.

Lemma append_cancel_l (a b b' : string) : a ++ b = a ++ b' -> b = b'.
Proof.
  induction a as [|c a IH]; cbn; intros H; [exact H|].
  injection H as H. exact (IH H).
Qed.

Lemma append_cancel_r (a a' b : string) : a ++ b = a' ++ b -> a = a'.
Proof.
  intros H. apply (@append_same_length a a' b b); [|exact H].
  apply (f_equal String.length) in H. rewrite !length_append in H.
  apply Nat.add_cancel_r in H. exact H.
Qed.

Lemma Number_toString_injective (a b : Z) :
  Number_toString a = Number_toString b -> a = b.
Proof.
  unfold Number_toString. intros H.
  assert (Hnn : forall z, Z.to_int z <> Decimal.Pos Decimal.Nil
                          /\ Z.to_int z <> Decimal.Neg Decimal.Nil).
  { intros [|p|p]; cbn; split; try discriminate;
      intros E; injection E as E; exact (DecimalPos.Unsigned.to_uint_nonnil p E). }
  apply DecimalZ.to_int_inj.
  apply (f_equal NilZero.int_of_string) in H.
  rewrite !NilZero.isi in H by apply Hnn.
  injection H as H. exact H.
Qed.

Section FurtherProperties.
Context {C : Collaborators}.

(** X7. Nothing that is thrown inside the [try] block of [decrypt] reaches
    the caller as it is. In a run in which the check of hash and signature
    has passed and the decryption call has returned a non-empty text,
    [decrypt] throws the parsing error exactly when the text does not parse
    or [ensureOwnerIsSender] throws on the parsed body, whatever it throws:
    the syntax error of the parser, a type error from a body of the wrong
    shape and the identity mismatch are not told apart. No other error is
    thrown in such a run. *)
Theorem decrypt_reports_try_block_errors_as_parsing_error
    (e : IEncryptedMessage.t) (receiver : Identity.t) (text : string) :
  digest_of e = IEncryptedMessage.hash e ->
  verify (IEncryptedMessage.hash e) (IEncryptedMessage.signature e)
         (IEncryptedMessage.senderAddress e) = true ->
  opened e receiver = Some text ->
  text <> "" ->
  (result_of (Message.decrypt e receiver) = Throw (SDK ERROR_PARSING_MESSAGE)
   <-> (JSON_parse text = None
        \/ exists messageBody err,
             JSON_parse text = Some messageBody
             /\ Message.ensureOwnerIsSender messageBody
                  (IEncryptedMessage.senderAddress e) = Throw err))
  /\ (forall err,
         result_of (Message.decrypt e receiver) = Throw err ->
         err = SDK ERROR_PARSING_MESSAGE).
Proof.
  intros Hh Hv Ho Ht. apply String.eqb_neq in Ht.
  rewrite decrypt_cases. cbv zeta.
  rewrite Hh, String.eqb_refl, Hv, Ho, Ht. cbn [negb result_of snd].
  destruct (JSON_parse text) as [messageBody|].
  - destruct (Message.ensureOwnerIsSender messageBody _) as [[]|err] eqn:Hown.
    + split; [split|].
      * intros H. discriminate H.
      * intros [H|[messageBody' [err [H H']]]]; [discriminate H|].
        injection H as <-. rewrite Hown in H'. discriminate H'.
      * intros err H. discriminate H.
    + split; [split|].
      * intros _. right. exists messageBody, err. split; [reflexivity|exact Hown].
      * intros _. reflexivity.
      * intros err' H. injection H as <-. reflexivity.
  - split; [split|].
    + intros _. left. reflexivity.
    + intros _. reflexivity.
    + intros err H. injection H as <-. reflexivity.
Qed.

(** X8. [decrypt] does not compare the body with the message body types.
    When a message passes the check of hash and signature and decrypts to a
    non-empty text that parses, and the [type] of the parsed value can be
    read and is none of the three kinds with an ownership check, the value
    is returned as the body: a body of an unknown kind, a body without
    [type], and a value that is no object. The value [null] is reported as a
    parsing error. *)
Theorem decrypt_returns_unchecked_bodies
    (e : IEncryptedMessage.t) (receiver : Identity.t)
    (text : string) (messageBody : Json) :
  digest_of e = IEncryptedMessage.hash e ->
  verify (IEncryptedMessage.hash e) (IEncryptedMessage.signature e)
         (IEncryptedMessage.senderAddress e) = true ->
  opened e receiver = Some text ->
  text <> "" ->
  JSON_parse text = Some messageBody ->
  (forall type,
      get (Some messageBody) "type" = Ok type ->
      strict_eq_str type (value_of REQUEST_ATTESTATION_FOR_CLAIM) = false ->
      strict_eq_str type (value_of SUBMIT_ATTESTATION_FOR_CLAIM) = false ->
      strict_eq_str type (value_of SUBMIT_CLAIMS_FOR_CTYPES_CLASSIC) = false ->
      result_of (Message.decrypt e receiver)
      = Ok (Message.spread_with_body e messageBody))
  /\ (messageBody = JNull ->
      result_of (Message.decrypt e receiver) = Throw (SDK ERROR_PARSING_MESSAGE)).
Proof.
  intros Hh Hv Ho Ht Hp. apply String.eqb_neq in Ht.
  rewrite decrypt_cases. cbv zeta.
  rewrite Hh, String.eqb_refl, Hv, Ho, Ht, Hp. cbn [negb result_of snd].
  split.
  - intros type Hty H1 H2 H3.
    rewrite (@ensureOwnerIsSender_default messageBody
               (IEncryptedMessage.senderAddress e) type Hty H1 H2 H3).
    reflexivity.
  - intros ->. reflexivity.
Qed.

(** X9. Under a digest without collisions, [ensureHashAndSignature] detects
    a change of any single one of the three hashed fields. When the hash of
    a message is the digest of its fields, the message with another
    ciphertext, or with another nonce, or with another createdAt, and with
    the other fields, the hash and the signature kept, fails with the
    nonce-hash error, and no signature is validated. *)
Theorem ensureHashAndSignature_detects_single_change
    (e : IEncryptedMessage.t) (signer : string) :
  (forall x y, hashStr x = hashStr y -> x = y) ->
  digest_of e = IEncryptedMessage.hash e ->
  let message := IEncryptedMessage.message e in
  let nonce := IEncryptedMessage.nonce e in
  let createdAt := IEncryptedMessage.createdAt e in
  let rejected e' :=
    Message.ensureHashAndSignature e' signer
    = ([ev_hash e'], Throw (nonce_hash_invalid e')) in
  (forall message', message' <> message ->
                    rejected (with_hashed_fields e message' nonce createdAt))
  /\ (forall nonce', nonce' <> nonce ->
                     rejected (with_hashed_fields e message nonce' createdAt))
  /\ (forall createdAt', createdAt' <> createdAt ->
                         rejected (with_hashed_fields e message nonce createdAt')).
Proof.
  intros Hinj Hh message nonce createdAt rejected.
  subst message nonce createdAt rejected. cbv beta.
  assert (Hrej : forall e',
             IEncryptedMessage.hash e' = IEncryptedMessage.hash e ->
             IEncryptedMessage.message e' ++ IEncryptedMessage.nonce e'
               ++ Number_toString (IEncryptedMessage.createdAt e')
             <> IEncryptedMessage.message e ++ IEncryptedMessage.nonce e
                  ++ Number_toString (IEncryptedMessage.createdAt e) ->
             Message.ensureHashAndSignature e' signer
             = ([ev_hash e'], Throw (nonce_hash_invalid e'))).
  { intros e' Hsame Hne. rewrite ensureHashAndSignature_cases.
    assert (Hd : digest_of e' <> IEncryptedMessage.hash e').
    { rewrite Hsame, <- Hh. unfold digest_of, digest. intros Heq.
      apply Hne, Hinj, Heq. }
    apply eqb_false_neq in Hd. rewrite Hd. reflexivity. }
  repeat split.
  - intros message' Hne. apply Hrej; [reflexivity|]. cbn. intros Heq.
    apply append_cancel_r in Heq. contradiction.
  - intros nonce' Hne. apply Hrej; [reflexivity|]. cbn. intros Heq.
    apply append_cancel_l, append_cancel_r in Heq. contradiction.
  - intros createdAt' Hne. apply Hrej; [reflexivity|]. cbn. intros Heq.
    apply append_cancel_l, append_cancel_l, Number_toString_injective in Heq.
    contradiction.
Qed.

(** X10. The hash does not fix where the ciphertext ends and the nonce
    begins. For every text [x], the message with ciphertext [message ++ x]
    and nonce [nonce] and the message with ciphertext [message] and nonce
    [x ++ nonce], with all other fields equal, get the same verdict of
    [ensureHashAndSignature]: both pass or both fail, and with the same
    calls. *)
Theorem ensureHashAndSignature_ignores_field_boundary
    (e : IEncryptedMessage.t) (signer x : string) :
  let message := IEncryptedMessage.message e in
  let nonce := IEncryptedMessage.nonce e in
  let createdAt := IEncryptedMessage.createdAt e in
  let e1 := with_hashed_fields e (message ++ x) nonce createdAt in
  let e2 := with_hashed_fields e message (x ++ nonce) createdAt in
  trace_of (Message.ensureHashAndSignature e1 signer)
  = trace_of (Message.ensureHashAndSignature e2 signer)
  /\ (result_of (Message.ensureHashAndSignature e1 signer) = Ok tt
      <-> result_of (Message.ensureHashAndSignature e2 signer) = Ok tt).
Proof.
  cbv zeta. rewrite !ensureHashAndSignature_cases.
  unfold digest_of, digest, ev_hash, ev_signature. cbn.
  assert (Happ : forall a b c : string, (a ++ b) ++ c = a ++ b ++ c).
  { intros a b c. induction a as [|k a IH]; cbn; [reflexivity|]. now rewrite IH. }
  rewrite !Happ.
  destruct (negb (String.eqb _ _)); [split; [reflexivity|split; discriminate]|].
  destruct (verify _ _ _); split; reflexivity || tauto.
Qed.

(** X11. A constructed message, once encrypted, passes
    [ensureHashAndSignature] under a claimed sender address exactly when
    the sender's signature on the hash verifies under that address; when it
    does not, the failure is the signature error and never the nonce-hash
    error. *)
Theorem constructed_message_passes_hash_check
    (body : Json) (sender : Identity.t) (receiver : IPublicIdentity.t)
    (now : Z) (fresh : string) (m : Message.t) (claimed : string) :
  result_of (Message.constructor body sender receiver now fresh) = Ok m ->
  Message.ensureHashAndSignature (Message.encrypt m) claimed
  = ([ev_hash (Message.encrypt m); ev_signature (Message.encrypt m) claimed],
     if verify (Message.hash m) (signStr sender (Message.hash m)) claimed
     then Ok tt else Throw (SDK ERROR_SIGNATURE_UNVERIFIABLE)).
Proof.
  intros Hm. rewrite constructor_cases in Hm. cbv zeta in Hm.
  destruct (encryptAsymmetricAsStr _ _ _ _) as [ea|]; [|discriminate Hm].
  injection Hm as <-. rewrite ensureHashAndSignature_cases.
  unfold digest_of. cbn. rewrite String.eqb_refl. cbn [negb].
  destruct (verify _ _ _); reflexivity.
Qed.

(** X12. For classic submitted claims the check runs through the array in
    order and ends at the first element that fails. An empty array passes;
    content that is no array throws a type error. When the elements before
    an element all have the sender as owner, a mismatch at that element
    gives the identity mismatch of Claims and Sender, and an element whose
    owner cannot be read gives the error of that read, whatever the later
    elements hold. *)
Theorem ensureOwnerIsSender_stops_at_first_failure
    (body : Json) (sender : string) :
  get (Some body) "type"
  = Ok (Some (JStr (value_of SUBMIT_CLAIMS_FOR_CTYPES_CLASSIC))) ->
  (get (Some body) "content" = Ok (Some (JArr [])) ->
   Message.ensureOwnerIsSender body sender = Ok tt)
  /\ (forall content,
         get (Some body) "content" = Ok content ->
         (forall claims, content <> Some (JArr claims)) ->
         Message.ensureOwnerIsSender body sender = Throw TypeError)
  /\ (forall good bad rest,
         get (Some body) "content" = Ok (Some (JArr (good ++ bad :: rest)%list)) ->
         forallb (owner_matches sender) good = true ->
         (forall owner,
             read_path (Some bad) listed_claim_owner_path = Ok owner ->
             strict_eq_str owner sender = false ->
             Message.ensureOwnerIsSender body sender = identity_mismatch "Claims")
         /\ (forall err,
                read_path (Some bad) listed_claim_owner_path = Throw err ->
                Message.ensureOwnerIsSender body sender = Throw err)).
Proof.
  intros Hty.
  assert (Hrun : forall content,
             get (Some body) "content" = Ok content ->
             Message.ensureOwnerIsSender body sender
             = js_forEach content (fun claim =>
                 Res_bind (get claim "request") (fun request =>
                 Res_bind (get request "claim") (fun claim' =>
                 Res_bind (get claim' "owner") (fun owner =>
                 if negb (strict_eq_str owner sender)
                 then Throw (SDK (ERROR_IDENTITY_MISMATCH "Claims" "Sender"))
                 else Ok tt))))).
  { intros content Hc. unfold Message.ensureOwnerIsSender.
    rewrite Hty. cbn [Res_bind].
    change (strict_eq_str
              (Some (JStr (value_of SUBMIT_CLAIMS_FOR_CTYPES_CLASSIC)))
              (value_of REQUEST_ATTESTATION_FOR_CLAIM)) with false.
    change (strict_eq_str
              (Some (JStr (value_of SUBMIT_CLAIMS_FOR_CTYPES_CLASSIC)))
              (value_of SUBMIT_ATTESTATION_FOR_CLAIM)) with false.
    cbn [strict_eq_str]. rewrite String.eqb_refl, Hc. reflexivity. }
  split; [|split].
  - intros Hc. rewrite (Hrun _ Hc). reflexivity.
  - intros content Hc Hna. rewrite (Hrun _ Hc).
    destruct content as [[| | | |claims|]|]; try reflexivity.
    destruct (Hna claims eq_refl).
  - intros good bad rest Hc Hgood. rewrite (Hrun _ Hc). cbn [js_forEach].
    clear Hrun Hc Hty.
    induction good as [|g good IH].
    + cbn [app forEach]. unfold listed_claim_owner_path. cbn [read_path].
      destruct (get (Some bad) "request") as [request|e1]; cbn [Res_bind].
      2:{ split; [intros owner H; discriminate H|].
          intros err H. injection H as <-. reflexivity. }
      destruct (get request "claim") as [claim'|e2]; cbn [Res_bind].
      2:{ split; [intros owner H; discriminate H|].
          intros err H. injection H as <-. reflexivity. }
      destruct (get claim' "owner") as [owner'|e3]; cbn [Res_bind].
      2:{ split; [intros owner H; discriminate H|].
          intros err H. injection H as <-. reflexivity. }
      split; [|intros err H; discriminate H].
      intros owner H Hne. injection H as ->. rewrite Hne. reflexivity.
    + cbn [forallb] in Hgood. apply andb_true_iff in Hgood.
      destruct Hgood as [Hg Hgood]. specialize (IH Hgood).
      cbn [app forEach].
      unfold owner_matches, listed_claim_owner_path in Hg. cbn [read_path] in Hg.
      destruct (get (Some g) "request") as [request|]; cbn [Res_bind] in *;
        [|discriminate Hg].
      destruct (get request "claim") as [claim'|]; cbn [Res_bind] in *;
        [|discriminate Hg].
      destruct (get claim' "owner") as [owner'|]; cbn [Res_bind] in *;
        [|discriminate Hg].
      rewrite Hg. cbn [negb]. exact IH.
Qed.

End FurtherProperties.

(* ------------------------------------------------------------------ *)
(** ** Properties of the DIDComm adapter *)

Lemma value_of_is_a_segment (kind : MessageBodyType) :
  segment cls_name (value_of kind).
Proof.
  split; destruct kind; (discriminate || reflexivity).
Qed.

Section DIDCommProperties.
Context {C : Collaborators}.

(** How [resolve_type] reads a type URI with the protocol name and version
    of this SDK. *)
Lemma resolve_type_of_type_uri
    (contents : Json) (issuer : string) (sep : ascii) (typestr : string) :
  get (Some contents) "@type"
  = Ok (Some (JStr (type_uri issuer sep PROTOCOL_NAME PROTOCOL_VERSION typestr))) ->
  cls_sep sep = true ->
  segment cls_name typestr ->
  Message.resolve_type contents
  = if isKnownMessageType typestr then Ok (Some typestr)
    else Throw (Error ("unknown message type: '" ++ typestr ++ "'")).
Proof.
  intros Hty Hsep Ht. unfold Message.resolve_type. rewrite Hty. cbn [Res_bind].
  destruct (@String_match_type_uri issuer sep PROTOCOL_NAME PROTOCOL_VERSION
              typestr Hsep) as [full [issuer' Hm]];
    [split; [discriminate|reflexivity] | split; [discriminate|reflexivity]
     | exact Ht |].
  rewrite Hm, !String.eqb_refl. reflexivity.
Qed.

(** What [decryptDIDComm] does once the envelope is unpacked and parsed. *)
Lemma decryptDIDComm_after_parse
    (packed : string) (recipient : Identity.t)
    (unpacked : Unpacked.t) (contents : Json) (type : string) :
  unpackMessage packed recipient = Ok unpacked ->
  JSON_parse (Unpacked.message unpacked) = Some contents ->
  Message.resolve_type contents = Ok (Some type) ->
  type <> "" ->
  Message.decryptDIDComm packed recipient
  = ([EvUnpack packed; EvParse (Unpacked.message unpacked)],
     Res_bind (get (Some contents) "content") (fun content =>
     Res_bind (get (Some contents) "sent_time") (fun sent_time =>
     Res_bind (base58Decode (Unpacked.senderKey unpacked)) (fun senderKey =>
     Res_bind (base58Decode (Unpacked.recipientKey unpacked)) (fun receiverKey =>
     Res_bind (get (Some contents) "senderBoxPublicKey") (fun boxKey =>
     Res_bind (encodeAddress receiverKey) (fun receiverAddress =>
     Res_bind (encodeAddress senderKey) (fun senderAddress =>
     Ok {| DIDCommMessage.body := DIDCommMessage.mk_body content type;
           DIDCommMessage.createdAt := Date_getTime sent_time;
           DIDCommMessage.senderBoxPublicKey := js_or boxKey (JStr "");
           DIDCommMessage.receiverAddress := receiverAddress;
           DIDCommMessage.senderAddress := senderAddress |})))))))).
Proof.
  intros Hu Hp Hr Hne.
  unfold Message.decryptDIDComm, call_unpackMessage, call_JSON_parse,
    call, lift, throw, ret, bind.
  rewrite Hu. cbv beta iota. rewrite Hp. cbv beta iota. rewrite Hr. cbv beta iota.
  destruct type as [|c type]; [contradiction|].
  generalize (get (Some contents) "content") (get (Some contents) "sent_time")
    (get (Some contents) "senderBoxPublicKey")
    (base58Decode (Unpacked.senderKey unpacked))
    (base58Decode (Unpacked.recipientKey unpacked)).
  intros [content|] [sent_time|] boxKey [senderKey|] [receiverKey|];
    try reflexivity.
  destruct boxKey as [boxKey|]; [|reflexivity]. cbn [Res_bind].
  destruct (encodeAddress receiverKey); [|reflexivity]. cbn [Res_bind].
  destruct (encodeAddress senderKey); reflexivity.
Qed.

Lemma get_of_readable (v : Json) (k k' : string) (x : JSValue) :
  get (Some v) k = Ok x -> get (Some v) k' = Ok (field v k').
Proof.
  unfold field. destruct v; cbn; try discriminate; reflexivity.
Qed.

(** X4. [decryptDIDComm] does not look at the issuer part of the type URI
    nor at the content. For an envelope that unpacks and parses, whose type
    URI is any text, a separator out of [/?&:;=] and
    [kilt-messaging/0.19/] followed by the value of a message body type,
    and whose two keys decode and encode to addresses, it returns a message
    of that type whose content is the [content] of the envelope as it is,
    whose sender and receiver address come from the sender key and the
    recipient key of the unpacking, and whose [senderBoxPublicKey] is the
    one of the envelope, or the empty string when that is missing or
    falsy. *)
Theorem decryptDIDComm_ignores_issuer_and_content
    (packed : string) (recipient : Identity.t)
    (unpacked : Unpacked.t) (contents : Json)
    (issuer : string) (sep : ascii) (kind : MessageBodyType)
    (senderKey receiverKey senderAddress receiverAddress : string) :
  unpackMessage packed recipient = Ok unpacked ->
  JSON_parse (Unpacked.message unpacked) = Some contents ->
  get (Some contents) "@type"
  = Ok (Some (JStr (type_uri issuer sep PROTOCOL_NAME PROTOCOL_VERSION
                      (value_of kind)))) ->
  cls_sep sep = true ->
  base58Decode (Unpacked.senderKey unpacked) = Ok senderKey ->
  base58Decode (Unpacked.recipientKey unpacked) = Ok receiverKey ->
  encodeAddress receiverKey = Ok receiverAddress ->
  encodeAddress senderKey = Ok senderAddress ->
  Message.decryptDIDComm packed recipient
  = ([EvUnpack packed; EvParse (Unpacked.message unpacked)],
     Ok {| DIDCommMessage.body :=
             DIDCommMessage.mk_body (field contents "content") (value_of kind);
           DIDCommMessage.createdAt := Date_getTime (field contents "sent_time");
           DIDCommMessage.senderBoxPublicKey :=
             js_or (field contents "senderBoxPublicKey") (JStr "");
           DIDCommMessage.receiverAddress := receiverAddress;
           DIDCommMessage.senderAddress := senderAddress |}).
Proof.
  intros Hu Hp Hty Hsep Hsk Hrk Hra Hsa.
  assert (Hr : Message.resolve_type contents = Ok (Some (value_of kind))).
  { rewrite (@resolve_type_of_type_uri contents issuer sep (value_of kind)
               Hty Hsep (value_of_is_a_segment kind)).
    assert (Hk : isKnownMessageType (value_of kind) = true)
      by (apply isKnownMessageType_spec; exists kind; reflexivity).
    rewrite Hk. reflexivity. }
  rewrite (@decryptDIDComm_after_parse packed recipient unpacked contents
             (value_of kind) Hu Hp Hr)
    by (destruct kind; discriminate).
  rewrite (@get_of_readable contents _ "content" _ Hty),
    (@get_of_readable contents _ "sent_time" _ Hty),
    (@get_of_readable contents _ "senderBoxPublicKey" _ Hty).
  cbn [Res_bind]. rewrite Hsk. cbn [Res_bind]. rewrite Hrk. cbn [Res_bind].
  rewrite Hra. cbn [Res_bind]. rewrite Hsa. reflexivity.
Qed.

(** X5. [decryptDIDComm] fails before it looks at the type when the
    envelope cannot be unpacked or read: an error of the unpacking is passed
    on after the single call that unpacks; a text that does not parse gives
    the syntax error of the parser; and an envelope that parses to [null]
    gives a type error, not the error for a missing type URI. *)
Theorem decryptDIDComm_early_failures (packed : string) (recipient : Identity.t) :
  (forall err,
      unpackMessage packed recipient = Throw err ->
      Message.decryptDIDComm packed recipient = ([EvUnpack packed], Throw err))
  /\ (forall unpacked,
         unpackMessage packed recipient = Ok unpacked ->
         (JSON_parse (Unpacked.message unpacked) = None ->
          Message.decryptDIDComm packed recipient
          = ([EvUnpack packed; EvParse (Unpacked.message unpacked)],
             Throw SyntaxError))
         /\ (JSON_parse (Unpacked.message unpacked) = Some JNull ->
             Message.decryptDIDComm packed recipient
             = ([EvUnpack packed; EvParse (Unpacked.message unpacked)],
                Throw TypeError))).
Proof.
  unfold Message.decryptDIDComm, call_unpackMessage, call_JSON_parse,
    call, lift, throw, ret, bind.
  split.
  - intros err Hu. rewrite Hu. reflexivity.
  - intros unpacked Hu. rewrite Hu. cbv beta iota. split; intros Hp; rewrite Hp;
      reflexivity.
Qed.

End DIDCommProperties.

Section DIDCommRoundTrip.
Context {C : Collaborators} {P : PackCollaborators}.

Lemma js_or_of_string (k : string) : js_or (Some (JStr k)) (JStr "") = JStr k.
Proof.
  unfold js_or, truthy. destruct (String.eqb k "") eqn:E; [|reflexivity].
  apply String.eqb_eq in E. now subst k.
Qed.

(** X6. [getDIDComm], then [decryptDIDComm]. Let the type of the body be a
    text [t] that is a non-empty run of [a-z0-9._-], for instance the value
    of a message body type, and let the collaborators of the packing return:
    the date is written, the address of the receiver decodes to a key, the
    seed of the sender gives a key pair, and the packing of the serialised
    envelope for that key returns a packed text. Then [getDIDComm] returns
    that packed text, whether [t] is the value of a message body type or
    not: it does not examine the type. Let the collaborators of the
    receiver be correct on it: unpacking returns the text that was packed,
    parsing returns the envelope that was serialised, the date written is
    read back as [createdAt], and the keys of the unpacking decode and
    encode to addresses. Then [decryptDIDComm] returns the message with
    type [t], the content of the body, [createdAt] and the sender's box
    public key if [t] is the value of a message body type, and throws the
    unknown-message-type error if it is not. *)
Theorem DIDComm_roundtrip
    (this : Message.t) (recipient sender : Identity.t) (repudiable : bool)
    (fresh_id packed sent_time t recipientKey : string)
    (senderKeyPair : KeyPair.t)
    (senderKey receiverKey senderKey' receiverKey' : string)
    (senderAddress receiverAddress : string) :
  let envelope :=
    DIDComm_messageBody (field (Message.body this) "content")
      (string_or (Message.messageId this) fresh_id)
      ("kilt.io/" ++ PROTOCOL_NAME ++ "/" ++ PROTOCOL_VERSION ++ "/" ++ t)
      sent_time (Identity.getBoxPublicKey sender) in
  get (Some (Message.body this)) "type" = Ok (Some (JStr t)) ->
  segment cls_name t ->
  Date_toISOString (Message.createdAt this) = Ok sent_time ->
  decodeAddress (Identity.address recipient) = Ok recipientKey ->
  naclKeypairFromSeed (Identity.seed sender) = Ok senderKeyPair ->
  pack_auth_msg_for_recipients (JSON_stringify envelope) [recipientKey]
    senderKeyPair (negb repudiable) = Ok packed ->
  unpackMessage packed recipient
  = Ok (Unpacked.mk (JSON_stringify envelope) senderKey receiverKey) ->
  JSON_parse (JSON_stringify envelope) = Some envelope ->
  Date_getTime (Some (JStr sent_time)) = Some (Message.createdAt this) ->
  base58Decode senderKey = Ok senderKey' ->
  base58Decode receiverKey = Ok receiverKey' ->
  encodeAddress receiverKey' = Ok receiverAddress ->
  encodeAddress senderKey' = Ok senderAddress ->
  getDIDComm this [Identity.getPublicIdentity recipient] sender repudiable fresh_id
  = Ok packed
  /\ result_of (Message.decryptDIDComm packed recipient)
     = if isKnownMessageType t then
         Ok {| DIDCommMessage.body :=
                 DIDCommMessage.mk_body (field (Message.body this) "content") t;
               DIDCommMessage.createdAt := Some (Message.createdAt this);
               DIDCommMessage.senderBoxPublicKey :=
                 JStr (Identity.getBoxPublicKey sender);
               DIDCommMessage.receiverAddress := receiverAddress;
               DIDCommMessage.senderAddress := senderAddress |}
       else Throw (Error ("unknown message type: '" ++ t ++ "'")).
Proof.
  intros envelope Hty Hseg Hiso Hkey Hpair Hpack Hunpack Hjson Hdate
         Hsk Hrk Hra Hsa.
  assert (Hcontent : get (Some (Message.body this)) "content"
                     = Ok (field (Message.body this) "content"))
    by exact (@get_of_readable _ _ "content" _ Hty).
  split.
  { unfold getDIDComm. rewrite Hcontent, Hty, Hiso.
    cbn [Res_bind map_throwing template_string Json_toString
         Identity.getPublicIdentity IPublicIdentity.address].
    rewrite Hkey. cbn [Res_bind]. rewrite Hpair. cbn [Res_bind].
    exact Hpack. }
  assert (Hat : get (Some envelope) "@type"
                = Ok (Some (JStr (type_uri "kilt.io" "/" PROTOCOL_NAME
                                    PROTOCOL_VERSION t)))).
  { unfold envelope, DIDComm_messageBody.
    destruct (field (Message.body this) "content"); reflexivity. }
  assert (Hr : Message.resolve_type envelope
               = if isKnownMessageType t then Ok (Some t)
                 else Throw (Error ("unknown message type: '" ++ t ++ "'")))
    by exact (@resolve_type_of_type_uri envelope "kilt.io" "/" t Hat eq_refl Hseg).
  destruct (isKnownMessageType t) eqn:Hk.
  - rewrite (@decryptDIDComm_after_parse _ packed recipient _ envelope t
               Hunpack Hjson Hr (proj1 Hseg)).
    cbn [result_of snd Unpacked.senderKey Unpacked.recipientKey].
    assert (H1 : get (Some envelope) "content"
                 = Ok (field (Message.body this) "content")).
    { unfold envelope, DIDComm_messageBody.
      destruct (field (Message.body this) "content"); reflexivity. }
    assert (H2 : get (Some envelope) "sent_time" = Ok (Some (JStr sent_time))).
    { unfold envelope, DIDComm_messageBody.
      destruct (field (Message.body this) "content"); reflexivity. }
    assert (H3 : get (Some envelope) "senderBoxPublicKey"
                 = Ok (Some (JStr (Identity.getBoxPublicKey sender)))).
    { unfold envelope, DIDComm_messageBody.
      destruct (field (Message.body this) "content"); reflexivity. }
    rewrite H1, H2, H3. cbn [Res_bind].
    rewrite Hsk. cbn [Res_bind]. rewrite Hrk. cbn [Res_bind].
    rewrite Hra. cbn [Res_bind]. rewrite Hsa.
    rewrite Hdate, js_or_of_string. reflexivity.
  - unfold Message.decryptDIDComm, call_unpackMessage, call_JSON_parse,
      call, lift, throw, ret, bind, result_of.
    rewrite Hunpack. cbv beta iota. cbn [Unpacked.message].
    rewrite Hjson. cbv beta iota. rewrite Hr. reflexivity.
Qed.

End DIDCommRoundTrip.

(* ------------------------------------------------------------------ *)
(** ** Properties of [Did.utils.ts] *)

Lemma startsWith_append (p s : string) : DidUtils.startsWith p (p ++ s) = true.
Proof.
  induction p as [|c p IH]; cbn; [reflexivity|].
  rewrite Ascii.eqb_refl. exact IH.
Qed.

Lemma substr_append (p s : string) : DidUtils.substr (String.length p) (p ++ s) = s.
Proof.
  induction p as [|c p IH]; cbn; [reflexivity|exact IH].
Qed.

Lemma startsWith_inv (p s : string) :
  DidUtils.startsWith p s = true -> s = p ++ DidUtils.substr (String.length p) s.
Proof.
  revert s. induction p as [|c p IH]; intros s H; cbn; [reflexivity|].
  destruct s as [|c' s]; cbn in H; [discriminate H|].
  apply andb_true_iff in H. destruct H as [Hc Hs].
  apply Ascii.eqb_eq in Hc. subst c'. f_equal. exact (IH s Hs).
Qed.

(** X13. [getIdentifierFromDid] undoes [getDidFromIdentifier] and the other
    way round: the identifier of the DID of an identifier is that
    identifier, also for the empty identifier; when a DID has an
    identifier, it is the DID of that identifier; and the only failure is
    the invalid-prefix error for the DID given, raised exactly for the texts
    that are the DID of no identifier. *)
Theorem did_identifier_round_trip :
  (forall identifier,
      DidUtils.getIdentifierFromDid (DidUtils.getDidFromIdentifier identifier)
      = DidUtils.Done identifier)
  /\ (forall did identifier,
         DidUtils.getIdentifierFromDid did = DidUtils.Done identifier ->
         DidUtils.getDidFromIdentifier identifier = did)
  /\ (forall did,
         (forall identifier, DidUtils.getDidFromIdentifier identifier <> did)
         <-> DidUtils.getIdentifierFromDid did
             = DidUtils.Raise (DidUtils.ERROR_INVALID_DID_PREFIX did))
  /\ (forall did e,
         DidUtils.getIdentifierFromDid did = DidUtils.Raise e ->
         e = DidUtils.ERROR_INVALID_DID_PREFIX did).
Proof.
  unfold DidUtils.getIdentifierFromDid, DidUtils.getDidFromIdentifier.
  split; [|split; [|split]].
  - intros identifier. rewrite startsWith_append, substr_append. reflexivity.
  - intros did identifier.
    destruct (DidUtils.startsWith DidUtils.KILT_DID_PREFIX did) eqn:E;
      cbn [negb]; intros H; [|discriminate H].
    injection H as <-. symmetry. exact (startsWith_inv _ _ E).
  - intros did. split.
    + intros Hno.
      destruct (DidUtils.startsWith DidUtils.KILT_DID_PREFIX did) eqn:E;
        cbn [negb]; [|reflexivity].
      destruct (Hno _ (eq_sym (startsWith_inv _ _ E))).
    + intros H identifier <-. rewrite startsWith_append in H. discriminate H.
  - intros did e.
    destruct (DidUtils.startsWith DidUtils.KILT_DID_PREFIX did);
      cbn [negb]; intros H; [discriminate H|].
    injection H as <-. reflexivity.
Qed.

Lemma startsWith_shorter (p q s : string) :
  DidUtils.startsWith (p ++ q) s = true -> DidUtils.startsWith p s = true.
Proof.
  revert s. induction p as [|c p IH]; intros s H; cbn; [reflexivity|].
  destruct s as [|c' s]; cbn in H; [discriminate H|].
  apply andb_true_iff in H. destruct H as [Hc Hs].
  rewrite Hc. exact (IH s Hs).
Qed.

(** A text has one first character: it cannot start with two texts that
    begin differently. *)
Lemma startsWith_other_initial (a b : ascii) (p q s : string) :
  a <> b ->
  DidUtils.startsWith (String a p) s = true ->
  DidUtils.startsWith (String b q) s = false.
Proof.
  intros Hab H. destruct s as [|c s]; [reflexivity|].
  cbn [DidUtils.startsWith] in *.
  apply andb_true_iff in H. destruct H as [Hc _].
  apply Ascii.eqb_eq in Hc. subst c.
  destruct (Ascii.eqb b a) eqn:E; [|reflexivity].
  apply Ascii.eqb_eq in E. congruence.
Qed.

(** What [encodeEndpointUrl] returns: the first of the three schemes that
    the URL starts with decides. *)
Lemma encodeEndpointUrl_cases (url : string) :
  DidUtils.encodeEndpointUrl url
  = if DidUtils.startsWith "http" url then DidUtils.Done [("http", url)]
    else if DidUtils.startsWith "ftp" url then DidUtils.Done [("ftp", url)]
    else if DidUtils.startsWith "ipfs" url then DidUtils.Done [("ipfs", url)]
    else DidUtils.Raise (DidUtils.PlainError
           "only endpoint urls starting with http/https, ftp, and ipfs are accepted").
Proof.
  unfold DidUtils.encodeEndpointUrl. cbn [DidUtils.some].
  destruct (DidUtils.startsWith "http" url); [reflexivity|].
  destruct (DidUtils.startsWith "ftp" url); [reflexivity|].
  destruct (DidUtils.startsWith "ipfs" url); reflexivity.
Qed.

(** X14. [encodeEndpointUrl] succeeds exactly when the URL starts with
    [http], [ftp] or [ipfs] (lower case; nothing after the scheme is
    examined): a URL that starts with one of the three schemes is encoded,
    and the result has one property, whose key is that scheme and whose
    payload is the URL unchanged; no other result is returned. A URL that
    starts with [https] is filed under [http]. A URL that starts with none
    of the three, and only such a URL, makes it throw the error that lists
    the accepted schemes. *)
Theorem encodeEndpointUrl_files_by_scheme (url : string) :
  (forall r,
      DidUtils.encodeEndpointUrl url = DidUtils.Done r
      <-> exists scheme,
            In scheme ["http"; "ftp"; "ipfs"]
            /\ DidUtils.startsWith scheme url = true
            /\ r = [(scheme, url)])
  /\ ((DidUtils.startsWith "http" url = false
       /\ DidUtils.startsWith "ftp" url = false
       /\ DidUtils.startsWith "ipfs" url = false)
      <-> DidUtils.encodeEndpointUrl url
          = DidUtils.Raise (DidUtils.PlainError
              "only endpoint urls starting with http/https, ftp, and ipfs are accepted"))
  /\ (DidUtils.startsWith "https" url = true ->
      DidUtils.encodeEndpointUrl url = DidUtils.Done [("http", url)]).
Proof.
  rewrite encodeEndpointUrl_cases.
  assert (Hhf : DidUtils.startsWith "ftp" url = true ->
                DidUtils.startsWith "http" url = false).
  { apply startsWith_other_initial. discriminate. }
  assert (Hhi : DidUtils.startsWith "ipfs" url = true ->
                DidUtils.startsWith "http" url = false).
  { apply startsWith_other_initial. discriminate. }
  assert (Hfi : DidUtils.startsWith "ipfs" url = true ->
                DidUtils.startsWith "ftp" url = false).
  { apply startsWith_other_initial. discriminate. }
  split; [|split].
  - intros r. split.
    + intros H.
      destruct (DidUtils.startsWith "http" url) eqn:E1.
      { injection H as <-. exists "http". cbn [In]. auto. }
      destruct (DidUtils.startsWith "ftp" url) eqn:E2.
      { injection H as <-. exists "ftp". cbn [In]. auto. }
      destruct (DidUtils.startsWith "ipfs" url) eqn:E3; [|discriminate H].
      injection H as <-. exists "ipfs". cbn [In]. auto.
    + intros [scheme [Hin [Hstarts ->]]].
      destruct Hin as [<-|[<-|[<-|[]]]].
      * rewrite Hstarts. reflexivity.
      * rewrite (Hhf Hstarts), Hstarts. reflexivity.
      * rewrite (Hhi Hstarts), (Hfi Hstarts), Hstarts. reflexivity.
  - split.
    + intros [-> [-> ->]]. reflexivity.
    + destruct (DidUtils.startsWith "http" url); [discriminate|].
      destruct (DidUtils.startsWith "ftp" url); [discriminate|].
      destruct (DidUtils.startsWith "ipfs" url); [discriminate|]. auto.
  - intros H.
    rewrite (@startsWith_shorter "http" "s" url H). reflexivity.
Qed.

Section RegistryProperties.
Variables KeyId Ctor Operation : Type.
Variable getOrThrow : string -> DidUtils.Result Ctor.
Variable construct : Ctor -> DidUtils.Raw KeyId -> DidUtils.Result Operation.

(** X15. A DID without the prefix [did:kilt:] is rejected by all three
    encoders, but not at the same point. [encodeDidCreate] and
    [encodeDidUpdate] throw the invalid-prefix error whatever the registry,
    the keys and the endpoint URL are. [encodeDidDelete] asks the registry
    for the constructor first: a failure of the registry is reported instead
    of the invalid prefix. *)
Theorem encoders_reject_invalid_did
    (did : string) (keys : DidUtils.PublicKeySet)
    (keysToUpdate : DidUtils.NullablePublicKeySet)
    (toRemove : list KeyId) (url : option string) (txCounter : Z) :
  DidUtils.startsWith DidUtils.KILT_DID_PREFIX did = false ->
  DidUtils.encodeDidCreate getOrThrow construct did keys url
  = DidUtils.Raise (DidUtils.ERROR_INVALID_DID_PREFIX did)
  /\ DidUtils.encodeDidUpdate getOrThrow construct did txCounter keysToUpdate
       toRemove url
     = DidUtils.Raise (DidUtils.ERROR_INVALID_DID_PREFIX did)
  /\ DidUtils.encodeDidDelete getOrThrow construct did txCounter
     = match getOrThrow "DidDeletionOperation" with
       | DidUtils.Done _ => DidUtils.Raise (DidUtils.ERROR_INVALID_DID_PREFIX did)
       | DidUtils.Raise e => DidUtils.Raise e
       end.
Proof.
  intros H.
  unfold DidUtils.encodeDidCreate, DidUtils.encodeDidUpdate,
    DidUtils.encodeDidDelete, DidUtils.getIdentifierFromDid.
  rewrite H. cbn [negb DidUtils.and_then]. split; [reflexivity|].
  split; [reflexivity|].
  destruct (getOrThrow "DidDeletionOperation"); reflexivity.
Qed.

(** X16. How the encoders treat what is left out. In an update, [null] and
    a key that is left out have the same effect for the authentication key
    and for the encryption key: neither can be deleted by an update. An
    endpoint URL that is the empty text is treated as no URL, in a creation
    and in an update; with a DID that has the prefix, a URL that is not
    empty and starts with none of the accepted schemes makes both throw the
    error of [encodeEndpointUrl] before the registry is asked. *)
Theorem encoders_treat_missing_values
    (did : string) (txCounter : Z) (keys : DidUtils.PublicKeySet)
    (authentication encryption attestation delegation : DidUtils.NullableKey)
    (toRemove : list KeyId) (url : option string) :
  let update a e u :=
    DidUtils.encodeDidUpdate getOrThrow construct did txCounter
      {| DidUtils.authentication' := a; DidUtils.encryption' := e;
         DidUtils.attestation' := attestation;
         DidUtils.delegation' := delegation |} toRemove u in
  let create u := DidUtils.encodeDidCreate getOrThrow construct did keys u in
  update DidUtils.Null encryption url = update DidUtils.Undefined encryption url
  /\ update authentication DidUtils.Null url
     = update authentication DidUtils.Undefined url
  /\ update authentication encryption (Some "")
     = update authentication encryption None
  /\ create (Some "") = create None
  /\ (forall u e,
         DidUtils.startsWith DidUtils.KILT_DID_PREFIX did = true ->
         u <> "" ->
         DidUtils.encodeEndpointUrl u = DidUtils.Raise e ->
         create (Some u) = DidUtils.Raise e
         /\ update authentication encryption (Some u) = DidUtils.Raise e).
Proof.
  cbv zeta. repeat split.
  - unfold DidUtils.encodeDidCreate, DidUtils.getIdentifierFromDid,
      DidUtils.optional_url.
    rewrite H. apply String.eqb_neq in H0. rewrite H0, H1. reflexivity.
  - unfold DidUtils.encodeDidUpdate, DidUtils.getIdentifierFromDid,
      DidUtils.optional_url.
    rewrite H. apply String.eqb_neq in H0. rewrite H0, H1. reflexivity.
Qed.

End RegistryProperties.

(** The constructor of an update gets [Delete] for an attestation key that
    is [null] and [Ignore] for one that is left out. *)
Lemma update_distinguishes_null_attestation_key (did : string) (txCounter : Z)
    (a e d : DidUtils.NullableKey) (url : option string) :
  DidUtils.startsWith DidUtils.KILT_DID_PREFIX did = true ->
  let update k :=
    DidUtils.encodeDidUpdate (fun _ => DidUtils.Done tt)
      (fun _ (raw : DidUtils.Raw unit) => DidUtils.Done raw) did txCounter
      {| DidUtils.authentication' := a; DidUtils.encryption' := e;
         DidUtils.attestation' := k; DidUtils.delegation' := d |} [] url in
  forall r r',
    update DidUtils.Null = DidUtils.Done r ->
    update DidUtils.Undefined = DidUtils.Done r' -> r <> r'.
Proof.
  intros H update r r'. subst update.
  unfold DidUtils.encodeDidUpdate, DidUtils.getIdentifierFromDid.
  rewrite H. cbn [negb DidUtils.and_then].
  destruct (DidUtils.optional_url url); cbn; [|discriminate].
  intros H1 H2. injection H1 as <-. injection H2 as <-. discriminate.
Qed.

(* ------------------------------------------------------------------ *)
(** ** The further properties on the sample collaborators *)

Lemma decryptDIDComm_ignores_issuer_and_content_witness :
  Message.decryptDIDComm
    (Sample.packed (Sample.envelope "someone.example;kilt-messaging/0.19/reject-terms"))
    Sample.bob
  = ([EvUnpack (Sample.packed
                  (Sample.envelope "someone.example;kilt-messaging/0.19/reject-terms"));
      EvParse (Sample.stringify
                 (Sample.envelope "someone.example;kilt-messaging/0.19/reject-terms"))],
     Ok {| DIDCommMessage.body :=
             DIDCommMessage.mk_body (Some (JObj [("cTypeHash", JStr "0xabc")]))
                                    "reject-terms";
           DIDCommMessage.createdAt := Some Sample.now;
           DIDCommMessage.senderBoxPublicKey := JStr "box-alice";
           DIDCommMessage.receiverAddress := "bob";
           DIDCommMessage.senderAddress := "sender-key" |}).
Proof.
  refine (@decryptDIDComm_ignores_issuer_and_content Sample.collaborators
            (Sample.packed
               (Sample.envelope "someone.example;kilt-messaging/0.19/reject-terms"))
            Sample.bob
            (Unpacked.mk
               (Sample.stringify
                  (Sample.envelope
                     "someone.example;kilt-messaging/0.19/reject-terms"))
               "sender-key" "bob")
            (Sample.envelope "someone.example;kilt-messaging/0.19/reject-terms")
            "someone.example" ";" REJECT_TERMS "sender-key" "bob" "sender-key" "bob"
            eq_refl _ eq_refl eq_refl eq_refl eq_refl eq_refl eq_refl).
  vm_compute. reflexivity.
Defined.

Lemma DIDComm_roundtrip_witness :
  (SamplePack.constructed Sample.requestTerms
   = Some (SamplePack.messageOf Sample.requestTerms)
   /\ @getDIDComm SamplePack.collaborators SamplePack.packer
        (SamplePack.messageOf Sample.requestTerms)
        [Identity.getPublicIdentity Sample.bob] Sample.alice true "uuid-1"
      = Ok (Sample.packed
              (SamplePack.envelopeOf (JObj [("cTypeHash", JStr "0xabc")])
                                     "request-terms"))
   /\ result_of (@Message.decryptDIDComm SamplePack.collaborators
                   (Sample.packed
                      (SamplePack.envelopeOf (JObj [("cTypeHash", JStr "0xabc")])
                                             "request-terms"))
                   Sample.bob)
      = Ok {| DIDCommMessage.body :=
                DIDCommMessage.mk_body (Some (JObj [("cTypeHash", JStr "0xabc")]))
                                       "request-terms";
              DIDCommMessage.createdAt := Some Sample.now;
              DIDCommMessage.senderBoxPublicKey := JStr "box-alice";
              DIDCommMessage.receiverAddress := "bob";
              DIDCommMessage.senderAddress := "sender-key" |})
  /\ (SamplePack.constructed SamplePack.unknownKind
      = Some (SamplePack.messageOf SamplePack.unknownKind)
      /\ isKnownMessageType "no-such-kind" = false
      /\ @getDIDComm SamplePack.collaborators SamplePack.packer
           (SamplePack.messageOf SamplePack.unknownKind)
           [Identity.getPublicIdentity Sample.bob] Sample.alice true "uuid-1"
         = Ok (Sample.packed (SamplePack.envelopeOf (JNum 1) "no-such-kind"))
      /\ result_of (@Message.decryptDIDComm SamplePack.collaborators
                      (Sample.packed
                         (SamplePack.envelopeOf (JNum 1) "no-such-kind"))
                      Sample.bob)
         = Throw (Error "unknown message type: 'no-such-kind'")).
Proof.
  split.
  - split; [reflexivity|].
    refine (@DIDComm_roundtrip SamplePack.collaborators SamplePack.packer
              (SamplePack.messageOf Sample.requestTerms)
              Sample.bob Sample.alice true "uuid-1"
              (Sample.packed
                 (SamplePack.envelopeOf (JObj [("cTypeHash", JStr "0xabc")])
                                        "request-terms"))
              "T1604321000123" "request-terms" "bob"
              (KeyPair.mk "public-seed-alice" "seed-alice")
              "sender-key" "bob" "sender-key" "bob" "sender-key" "bob"
              eq_refl _ eq_refl eq_refl eq_refl eq_refl eq_refl _ _
              eq_refl eq_refl eq_refl eq_refl).
    + split; [discriminate|reflexivity].
    + vm_compute. reflexivity.
    + vm_compute. reflexivity.
  - split; [reflexivity|]. split; [reflexivity|].
    refine (@DIDComm_roundtrip SamplePack.collaborators SamplePack.packer
              (SamplePack.messageOf SamplePack.unknownKind)
              Sample.bob Sample.alice true "uuid-1"
              (Sample.packed (SamplePack.envelopeOf (JNum 1) "no-such-kind"))
              "T1604321000123" "no-such-kind" "bob"
              (KeyPair.mk "public-seed-alice" "seed-alice")
              "sender-key" "bob" "sender-key" "bob" "sender-key" "bob"
              eq_refl _ eq_refl eq_refl eq_refl eq_refl eq_refl _ _
              eq_refl eq_refl eq_refl eq_refl).
    + split; [discriminate|reflexivity].
    + vm_compute. reflexivity.
    + vm_compute. reflexivity.
Defined.

Lemma decrypt_reports_try_block_errors_as_parsing_error_witness :
  (Sample.parse "{oops" = None
   /\ result_of (Message.decrypt (SamplePack.sealed "{oops") Sample.bob)
      = Throw (SDK ERROR_PARSING_MESSAGE))
  /\ (Message.ensureOwnerIsSender SamplePack.requestWithoutContent "alice"
      = Throw TypeError
      /\ result_of (Message.decrypt
                      (Sample.sent SamplePack.requestWithoutContent "n1") Sample.bob)
         = Throw (SDK ERROR_PARSING_MESSAGE))
  /\ (Message.ensureOwnerIsSender (Sample.submitAttestation "eve") "alice"
      = identity_mismatch "Attestation"
      /\ result_of (Message.decrypt
                      (Sample.sent (Sample.submitAttestation "eve") "n1") Sample.bob)
         = Throw (SDK ERROR_PARSING_MESSAGE)).
Proof.
  split; [|split]; (split; [reflexivity|]).
  - refine (proj2 (proj1 (@decrypt_reports_try_block_errors_as_parsing_error
                            Sample.collaborators (SamplePack.sealed "{oops")
                            Sample.bob "{oops" eq_refl eq_refl eq_refl _))
              (or_introl eq_refl)).
    discriminate.
  - refine (proj2 (proj1 (@decrypt_reports_try_block_errors_as_parsing_error
                            Sample.collaborators
                            (Sample.sent SamplePack.requestWithoutContent "n1")
                            Sample.bob
                            (Sample.stringify SamplePack.requestWithoutContent)
                            eq_refl eq_refl eq_refl _))
              (or_intror
                 (ex_intro _ SamplePack.requestWithoutContent
                    (ex_intro _ TypeError (conj eq_refl eq_refl))))).
    vm_compute. discriminate.
  - refine (proj2 (proj1 (@decrypt_reports_try_block_errors_as_parsing_error
                            Sample.collaborators
                            (Sample.sent (Sample.submitAttestation "eve") "n1")
                            Sample.bob
                            (Sample.stringify (Sample.submitAttestation "eve"))
                            eq_refl eq_refl eq_refl _))
              (or_intror
                 (ex_intro _ (Sample.submitAttestation "eve")
                    (ex_intro _ (SDK (ERROR_IDENTITY_MISMATCH "Attestation" "Sender"))
                       (conj eq_refl eq_refl))))).
    vm_compute. discriminate.
Defined.

Lemma decrypt_returns_unchecked_bodies_witness :
  result_of (Message.decrypt
               (Sample.sent (JObj [("type", JStr "no-such-kind")]) "n1") Sample.bob)
  = Ok (Message.spread_with_body
          (Sample.sent (JObj [("type", JStr "no-such-kind")]) "n1")
          (JObj [("type", JStr "no-such-kind")]))
  /\ result_of (Message.decrypt (Sample.sent (JNum 7) "n1") Sample.bob)
     = Ok (Message.spread_with_body (Sample.sent (JNum 7) "n1") (JNum 7))
  /\ result_of (Message.decrypt (Sample.sent JNull "n1") Sample.bob)
     = Throw (SDK ERROR_PARSING_MESSAGE).
Proof.
  split; [|split].
  - refine (proj1 (@decrypt_returns_unchecked_bodies Sample.collaborators
                     (Sample.sent (JObj [("type", JStr "no-such-kind")]) "n1")
                     Sample.bob _ (JObj [("type", JStr "no-such-kind")])
                     eq_refl eq_refl eq_refl _ _)
              (Some (JStr "no-such-kind")) eq_refl eq_refl eq_refl eq_refl).
    + vm_compute. discriminate.
    + vm_compute. reflexivity.
  - refine (proj1 (@decrypt_returns_unchecked_bodies Sample.collaborators
                     (Sample.sent (JNum 7) "n1") Sample.bob _ (JNum 7)
                     eq_refl eq_refl eq_refl _ _)
              None eq_refl eq_refl eq_refl eq_refl).
    + vm_compute. discriminate.
    + vm_compute. reflexivity.
  - refine (proj2 (@decrypt_returns_unchecked_bodies Sample.collaborators
                     (Sample.sent JNull "n1") Sample.bob _ JNull
                     eq_refl eq_refl eq_refl _ _) eq_refl).
    + vm_compute. discriminate.
    + vm_compute. reflexivity.
Defined.

Lemma ensureHashAndSignature_detects_single_change_witness :
  digest_of (Sample.sent Sample.requestTerms "n1")
  = IEncryptedMessage.hash (Sample.sent Sample.requestTerms "n1")
  /\ result_of (Message.ensureHashAndSignature
                  (with_hashed_fields (Sample.sent Sample.requestTerms "n1")
                     (IEncryptedMessage.message (Sample.sent Sample.requestTerms "n1"))
                     (IEncryptedMessage.nonce (Sample.sent Sample.requestTerms "n1"))
                     (Sample.now + 1))
                  "alice")
     = Throw (nonce_hash_invalid
                (with_hashed_fields (Sample.sent Sample.requestTerms "n1")
                   (IEncryptedMessage.message (Sample.sent Sample.requestTerms "n1"))
                   (IEncryptedMessage.nonce (Sample.sent Sample.requestTerms "n1"))
                   (Sample.now + 1))).
Proof.
  split; [reflexivity|].
  refine (f_equal snd
            (proj2 (proj2 (@ensureHashAndSignature_detects_single_change
                             Sample.collaborators
                             (Sample.sent Sample.requestTerms "n1") "alice"
                             Sample_hash_injective eq_refl))
               (Sample.now + 1)%Z _)).
  vm_compute. discriminate.
Defined.

Lemma constructed_message_passes_hash_check_witness :
  exists m,
    result_of (Message.constructor Sample.requestTerms Sample.alice
                 (Identity.getPublicIdentity Sample.bob) Sample.now "n1") = Ok m
    /\ result_of (Message.ensureHashAndSignature (Message.encrypt m) "alice") = Ok tt
    /\ result_of (Message.ensureHashAndSignature (Message.encrypt m) "bob")
       = Throw (SDK ERROR_SIGNATURE_UNVERIFIABLE).
Proof.
  eexists. split; [reflexivity|]. split.
  - exact (f_equal snd
             (@constructed_message_passes_hash_check Sample.collaborators
                Sample.requestTerms Sample.alice
                (Identity.getPublicIdentity Sample.bob) Sample.now "n1" _ "alice"
                eq_refl)).
  - exact (f_equal snd
             (@constructed_message_passes_hash_check Sample.collaborators
                Sample.requestTerms Sample.alice
                (Identity.getPublicIdentity Sample.bob) Sample.now "n1" _ "bob"
                eq_refl)).
Defined.

Lemma ensureOwnerIsSender_stops_at_first_failure_witness :
  Message.ensureOwnerIsSender
    (SamplePack.submitClaims
       [SamplePack.attestedClaim "alice"; SamplePack.attestedClaim "eve"; JNull])
    "alice"
  = identity_mismatch "Claims"
  /\ Message.ensureOwnerIsSender
       (SamplePack.submitClaims
          [SamplePack.attestedClaim "alice"; JNull; SamplePack.attestedClaim "eve"])
       "alice"
     = Throw TypeError
  /\ Message.ensureOwnerIsSender (SamplePack.submitClaims []) "alice" = Ok tt.
Proof.
  split; [|split].
  - exact (proj1 (proj2 (proj2 (@ensureOwnerIsSender_stops_at_first_failure
                                  (SamplePack.submitClaims
                                     [SamplePack.attestedClaim "alice";
                                      SamplePack.attestedClaim "eve"; JNull])
                                  "alice" eq_refl))
                    [SamplePack.attestedClaim "alice"]
                    (SamplePack.attestedClaim "eve") [JNull] eq_refl eq_refl)
             (Some (JStr "eve")) eq_refl eq_refl).
  - exact (proj2 (proj2 (proj2 (@ensureOwnerIsSender_stops_at_first_failure
                                  (SamplePack.submitClaims
                                     [SamplePack.attestedClaim "alice"; JNull;
                                      SamplePack.attestedClaim "eve"])
                                  "alice" eq_refl))
                    [SamplePack.attestedClaim "alice"] JNull
                    [SamplePack.attestedClaim "eve"] eq_refl eq_refl)
             TypeError eq_refl).
  - exact (proj1 (@ensureOwnerIsSender_stops_at_first_failure
                    (SamplePack.submitClaims []) "alice" eq_refl) eq_refl).
Defined.

Lemma encoders_reject_invalid_did_witness :
  DidUtils.encodeDidCreate SamplePack.emptyRegistry
    (fun _ (raw : DidUtils.Raw unit) => DidUtils.Done raw)
    "did:sov:alice"
    {| DidUtils.authentication := DidUtils.Build_IPublicKey "ed25519" [];
       DidUtils.encryption := DidUtils.Build_IPublicKey "x25519" [];
       DidUtils.attestation := None;
       DidUtils.delegation := None |}
    (Some "gopher://example")
  = DidUtils.Raise (DidUtils.ERROR_INVALID_DID_PREFIX "did:sov:alice")
  /\ DidUtils.encodeDidDelete SamplePack.emptyRegistry
       (fun _ (raw : DidUtils.Raw unit) => DidUtils.Done raw) "did:sov:alice" 1
     = DidUtils.Raise (DidUtils.Raised "getOrThrow" "DidDeletionOperation").
Proof.
  pose proof (@encoders_reject_invalid_did unit unit (DidUtils.Raw unit)
                SamplePack.emptyRegistry
                (fun _ (raw : DidUtils.Raw unit) => DidUtils.Done raw)
                "did:sov:alice"
                {| DidUtils.authentication := DidUtils.Build_IPublicKey "ed25519" [];
                   DidUtils.encryption := DidUtils.Build_IPublicKey "x25519" [];
                   DidUtils.attestation := None;
                   DidUtils.delegation := None |}
                {| DidUtils.authentication' := DidUtils.Undefined;
                   DidUtils.encryption' := DidUtils.Undefined;
                   DidUtils.attestation' := DidUtils.Undefined;
                   DidUtils.delegation' := DidUtils.Undefined |}
                [] (Some "gopher://example") 1%Z eq_refl)
    as [Hcreate [_ Hdelete]].
  split; [exact Hcreate|exact Hdelete].
Defined.
